(** * Service-request lifecycle of the Aqua Home backend

    A shallow embedding of [src/services/serviceRequests.service.ts]: the
    status-transition engine ([updateServiceRequestStatus]), the two
    validators and the synchronizer that the file defines next to it, the
    assignment and scheduling operations and the operator-side creation of
    installation service requests.  The store behind [fastify.db] is an
    explicit state; a thrown error is a result that leaves the store as it
    was at the throw. *)

From Stdlib Require Import ZArith String Ascii List Bool Lia.
From stdpp Require Import base decidable option strings gmap sorting.
Import ListNotations.
Open Scope string_scope.
Open Scope Z_scope.

(** ** Enumerations of [../types]

    The service file imports its enumerations from [../types], which is
    missing; each one is modelled below with the members that the service
    file and the specification name. *)

Module ServiceRequestStatus.

(** Modelled from the spec: the enum [ServiceRequestStatus] of [../types]
    (missing).  Its members are the seven statuses of the transition table,
    which are also the seven keys of the [Record<ServiceRequestStatus, ...>]
    literal in [updateServiceRequestStatus]: a [Record] over an enum has
    exactly one key per member. *)
Inductive t : Set :=
  | CREATED | ASSIGNED | SCHEDULED | IN_PROGRESS
  | PAYMENT_PENDING | COMPLETED | CANCELLED.

#[global] Instance eq_dec : EqDecision t.
Proof. solve_decision. Defined.

(** Modelled from the spec: the string value of each member of the enum
    [ServiceRequestStatus] (declared in [../types], which is missing); the
    spec writes the statuses in upper case, as the member names. *)
Definition name (s : t) : string :=
  match s with
  | CREATED => "CREATED"
  | ASSIGNED => "ASSIGNED"
  | SCHEDULED => "SCHEDULED"
  | IN_PROGRESS => "IN_PROGRESS"
  | PAYMENT_PENDING => "PAYMENT_PENDING"
  | COMPLETED => "COMPLETED"
  | CANCELLED => "CANCELLED"
  end.

End ServiceRequestStatus.

Module ServiceRequestType.

(** Modelled from the spec: the value of [ServiceRequestType.INSTALLATION]
    (declared in [../types], which is missing).  The type column holds a
    string; [getServiceRequestById] and [updateServiceRequestStatus] compare
    it with the literal ['installation'], which is taken to be the value of
    the enum member. *)
Definition INSTALLATION : string := "installation".

End ServiceRequestType.

Module UserRole.

(** Modelled from the spec: the enum [UserRole] of [../types] (missing),
    with the four roles that the service file tests. *)
Inductive t : Set := ADMIN | FRANCHISE_OWNER | SERVICE_AGENT | CUSTOMER.

#[global] Instance eq_dec : EqDecision t.
Proof. solve_decision. Defined.

End UserRole.

Module InstallationRequestStatus.

(** Modelled from the spec: the enum [InstallationRequestStatus] of
    [../types] (missing), with the five members that the specification lists
    and the service file writes; [OTHER] stands for the members that neither
    names. *)
Inductive t : Set :=
  | INSTALLATION_SCHEDULED | INSTALLATION_IN_PROGRESS | PAYMENT_PENDING
  | INSTALLATION_COMPLETED | CANCELLED | OTHER (label : string).

#[global] Instance eq_dec : EqDecision t.
Proof. solve_decision. Defined.

End InstallationRequestStatus.

Module PaymentStatus.

(** Modelled from the spec: the enum [PaymentStatus] of [../types]
    (missing); the service file tests for [COMPLETED] only. *)
Inductive t : Set := COMPLETED | OTHER (label : string).

#[global] Instance eq_dec : EqDecision t.
Proof. solve_decision. Defined.

End PaymentStatus.

Module ActionType.

(** Modelled from the spec: the enum [ActionType] of [../types] (missing),
    with the members that the service file names. *)
Inductive t : Set :=
  | SERVICE_REQUEST_CREATED | SERVICE_REQUEST_ASSIGNED | SERVICE_REQUEST_SCHEDULED
  | SERVICE_REQUEST_IN_PROGRESS | SERVICE_REQUEST_COMPLETED | SERVICE_REQUEST_CANCELLED
  | INSTALLATION_REQUEST_SCHEDULED | INSTALLATION_REQUEST_IN_PROGRESS
  | INSTALLATION_REQUEST_COMPLETED | INSTALLATION_REQUEST_CANCELLED.

End ActionType.

(** ** Errors of [../utils/errors] *)

(** Modelled from the spec: [notFound], [badRequest] and [forbidden] of
    [../utils/errors] (missing) build the error kinds NOT_FOUND, BAD_REQUEST
    and FORBIDDEN of the specification.  [TypeError] and [RangeError] are the
    two run-time errors of JavaScript that the modelled code can raise by
    itself. *)

Inductive AppError : Type :=
  | notFound (what : string)
  | badRequest (message : string)
  | forbidden (message : string)
  | TypeError
  | RangeError.

Inductive Result (A : Type) : Type :=
  | Ok (a : A)
  | Err (e : AppError).
Arguments Ok {A} a.
Arguments Err {A} e.

Definition isOk {A} (r : Result A) : bool :=
  match r with Ok _ => true | Err _ => false end.

(** ** Rows of the store *)

Module ServiceRequest.

(** Modelled from the spec: the table [serviceRequests] of
    [../models/schema] (missing).  The columns are the fields of the
    specification's data model, which are the keys of the two insert literals
    of the file ([createServiceRequest] and
    [createInstallationServiceRequest]); the second literal alone carries
    [requirePayment], which is therefore nullable here. *)
Record t : Type := mk {
  id : string;
  subscriptionId : option string;
  customerId : string;
  productId : string;
  installationRequestId : option string;
  type : string;
  description : string;
  images : option string;
  status : ServiceRequestStatus.t;
  assignedToId : option string;
  franchiseId : option string;
  scheduledDate : option string;
  completedDate : option string;
  beforeImages : option string;
  afterImages : option string;
  requiresPayment : bool;
  paymentAmount : option Z;
  createdAt : string;
  updatedAt : string;
  requirePayment : option bool
}.

End ServiceRequest.

Module InstallationRequest.

(** Modelled from the spec: the table [installationRequests] of
    [../models/schema] (missing), with the columns that the service file
    reads or writes.  The same holds for the five tables that follow. *)
Record t : Type := mk {
  id : string;
  customerId : string;
  productId : string;
  franchiseId : string;
  status : option InstallationRequestStatus.t;
  assignedTechnicianId : option string
}.

End InstallationRequest.

Module User.

Record t : Type := mk {
  id : string;
  role : UserRole.t;
  name : option string;
  phone : string;
  city : option string
}.

End User.

Module Franchise.

Record t : Type := mk {
  id : string;
  ownerId : option string;
  city : string
}.

End Franchise.

Module Payment.

Record t : Type := mk {
  id : string;
  installationRequestId : option string;
  status : PaymentStatus.t
}.

End Payment.

Module Product.

Record t : Type := mk { id : string }.

End Product.

Module Subscription.

Record t : Type := mk {
  id : string;
  customerId : string;
  franchiseId : string
}.

End Subscription.

(** One appended fact of the action history.  The entry keeps the subject
    of the fact, the action label or type, the two statuses and the actor;
    comments and metadata are not kept. *)
Inductive ActionSubject : Type :=
  | OnEntity (entityType entityId : string)
  | OnServiceRequest (serviceRequestId : string)
  | OnInstallationRequest (installationRequestId : string).

Inductive ActionLabel : Type :=
  | ActionName (action : string)
  | ActionOfType (actionType : option ActionType.t).

Inductive StatusRef : Type :=
  | NoStatus
  | OfServiceRequest (s : ServiceRequestStatus.t)
  | OfInstallationRequest (s : option InstallationRequestStatus.t).

Record ActionHistoryEntry : Type := mkEntry {
  subject : ActionSubject;
  label : ActionLabel;
  fromStatus : StatusRef;
  toStatus : StatusRef;
  performedBy : string
}.

(** The acting user, as decoded from the token by the auth plugin. *)
Record ActingUser : Type := mkUser {
  userId : string;
  role : UserRole.t
}.

(** The tables reached through [fastify.db], and the history sink. *)
Record Db : Type := mkDb {
  serviceRequests : list ServiceRequest.t;
  installationRequests : list InstallationRequest.t;
  users : list User.t;
  franchises : list Franchise.t;
  payments : list Payment.t;
  products : list Product.t;
  subscriptions : list Subscription.t;
  actionHistory : list ActionHistoryEntry
}.

(** ** The monad of the service: a store and a thrown error *)

Definition M (A : Type) : Type := Db -> Result A * Db.

Definition ret {A} (a : A) : M A := fun db => (Ok a, db).

Definition throw {A} (e : AppError) : M A := fun db => (Err e, db).

Definition bind {A B} (m : M A) (k : A -> M B) : M B :=
  fun db =>
    match m db with
    | (Ok a, db') => k a db'
    | (Err e, db') => (Err e, db')
    end.

Definition query {A} (f : Db -> A) : M A := fun db => (Ok (f db), db).

Definition modify (f : Db -> Db) : M unit := fun db => (Ok tt, f db).

Notation "'let*' x ':=' m 'in' k" := (bind m (fun x => k))
  (at level 10, x pattern, m at level 100, k at level 200).
Notation "m ';;' k" := (bind m (fun _ => k))
  (at level 100, k at level 200, right associativity).

Definition when (b : bool) (m : M unit) : M unit := if b then m else ret tt.

(** ** JavaScript values and idioms *)

(** A value stored under a key of an object literal handed to the store. *)
Inductive Value : Type :=
  | VUndefined
  | VNull
  | VString (s : string)
  | VNumber (n : Z)
  | VBool (b : bool)
  | VStatus (s : ServiceRequestStatus.t).

(** Truthiness of an optional string: [undefined], [null] and [''] are
    falsy. *)
Definition truthy (o : option string) : bool :=
  match o with
  | Some s => negb (bool_decide (s = EmptyString))
  | None => false
  end.

(** Truthiness of an optional number: [0] is falsy.  Amounts are whole
    numbers in this model. *)
Definition truthyNumber (o : option Z) : bool :=
  match o with
  | Some n => negb (n =? 0)
  | None => false
  end.

(** [!images || images.length === 0] *)
Definition noImages (o : option (list string)) : bool :=
  match o with
  | Some (_ :: _) => false
  | _ => true
  end.

(** [a || d] on strings. *)
Definition orElse (a d : string) : string :=
  if bool_decide (a = EmptyString) then d else a.

(** [Array.prototype.join] on an array of strings. *)
Definition join (sep : string) (l : list string) : string := String.concat sep l.

Definition lowerAscii (c : ascii) : ascii :=
  let n := nat_of_ascii c in
  if ((65 <=? n) && (n <=? 90))%nat then ascii_of_nat (n + 32) else c.

Fixpoint toLowerCase (s : string) : string :=
  match s with
  | EmptyString => EmptyString
  | String c s' => String (lowerAscii c) (toLowerCase s')
  end.

(** [Array.prototype.includes] on an array of statuses. *)
Definition includes (l : list ServiceRequestStatus.t) (s : ServiceRequestStatus.t) : bool :=
  existsb (fun x => bool_decide (x = s)) l.

(** ** The store: [update ... set ... where], [findFirst], the history sink *)

(** What [set] does to one column: a key that is absent or [undefined]
    leaves the column alone. *)
Definition setText (u : gmap string Value) (key : string) (old : string) : string :=
  match u !! key with
  | Some (VString s) => s
  | _ => old
  end.

Definition setNullableText (u : gmap string Value) (key : string) (old : option string)
  : option string :=
  match u !! key with
  | Some (VString s) => Some s
  | Some VNull => None
  | _ => old
  end.

Definition setNullableNumber (u : gmap string Value) (key : string) (old : option Z)
  : option Z :=
  match u !! key with
  | Some (VNumber n) => Some n
  | Some VNull => None
  | _ => old
  end.

Definition setBool (u : gmap string Value) (key : string) (old : bool) : bool :=
  match u !! key with
  | Some (VBool b) => b
  | _ => old
  end.

Definition setNullableBool (u : gmap string Value) (key : string) (old : option bool)
  : option bool :=
  match u !! key with
  | Some (VBool b) => Some b
  | Some VNull => None
  | _ => old
  end.

Definition setStatus (u : gmap string Value) (key : string) (old : ServiceRequestStatus.t)
  : ServiceRequestStatus.t :=
  match u !! key with
  | Some (VStatus s) => s
  | _ => old
  end.

(** [db.update(serviceRequests).set(u)] on one row, as the query builder
    behind [fastify.db] runs it: the keys of [u] that name a column of the
    table are written, and a key that names no column writes nothing. *)
Definition setServiceRequest (u : gmap string Value) (r : ServiceRequest.t)
  : ServiceRequest.t :=
  {| ServiceRequest.id := setText u "id" (ServiceRequest.id r);
     ServiceRequest.subscriptionId :=
       setNullableText u "subscriptionId" (ServiceRequest.subscriptionId r);
     ServiceRequest.customerId := setText u "customerId" (ServiceRequest.customerId r);
     ServiceRequest.productId := setText u "productId" (ServiceRequest.productId r);
     ServiceRequest.installationRequestId :=
       setNullableText u "installationRequestId" (ServiceRequest.installationRequestId r);
     ServiceRequest.type := setText u "type" (ServiceRequest.type r);
     ServiceRequest.description := setText u "description" (ServiceRequest.description r);
     ServiceRequest.images := setNullableText u "images" (ServiceRequest.images r);
     ServiceRequest.status := setStatus u "status" (ServiceRequest.status r);
     ServiceRequest.assignedToId :=
       setNullableText u "assignedToId" (ServiceRequest.assignedToId r);
     ServiceRequest.franchiseId :=
       setNullableText u "franchiseId" (ServiceRequest.franchiseId r);
     ServiceRequest.scheduledDate :=
       setNullableText u "scheduledDate" (ServiceRequest.scheduledDate r);
     ServiceRequest.completedDate :=
       setNullableText u "completedDate" (ServiceRequest.completedDate r);
     ServiceRequest.beforeImages :=
       setNullableText u "beforeImages" (ServiceRequest.beforeImages r);
     ServiceRequest.afterImages :=
       setNullableText u "afterImages" (ServiceRequest.afterImages r);
     ServiceRequest.requiresPayment :=
       setBool u "requiresPayment" (ServiceRequest.requiresPayment r);
     ServiceRequest.paymentAmount :=
       setNullableNumber u "paymentAmount" (ServiceRequest.paymentAmount r);
     ServiceRequest.createdAt := setText u "createdAt" (ServiceRequest.createdAt r);
     ServiceRequest.updatedAt := setText u "updatedAt" (ServiceRequest.updatedAt r);
     ServiceRequest.requirePayment :=
       setNullableBool u "requirePayment" (ServiceRequest.requirePayment r) |}.

Definition withServiceRequests (l : list ServiceRequest.t) (db : Db) : Db :=
  {| serviceRequests := l;
     installationRequests := installationRequests db;
     users := users db;
     franchises := franchises db;
     payments := payments db;
     products := products db;
     subscriptions := subscriptions db;
     actionHistory := actionHistory db |}.

Definition withInstallationRequests (l : list InstallationRequest.t) (db : Db) : Db :=
  {| serviceRequests := serviceRequests db;
     installationRequests := l;
     users := users db;
     franchises := franchises db;
     payments := payments db;
     products := products db;
     subscriptions := subscriptions db;
     actionHistory := actionHistory db |}.

Definition withActionHistory (l : list ActionHistoryEntry) (db : Db) : Db :=
  {| serviceRequests := serviceRequests db;
     installationRequests := installationRequests db;
     users := users db;
     franchises := franchises db;
     payments := payments db;
     products := products db;
     subscriptions := subscriptions db;
     actionHistory := l |}.

(** [db.update(serviceRequests).set(u).where(eq(serviceRequests.id, id))] *)
Definition updateServiceRequestsWhereId (u : gmap string Value) (id : string) : M unit :=
  modify (fun db =>
    withServiceRequests
      (map (fun r => if bool_decide (ServiceRequest.id r = id)
                     then setServiceRequest u r else r)
           (serviceRequests db))
      db).

(** [db.update(installationRequests).set({status, assignedTechnicianId})
    .where(eq(installationRequests.id, id))]; an [undefined] technician
    writes nothing. *)
Definition setInstallationRequest (st : option InstallationRequestStatus.t)
  (technician : option string) (r : InstallationRequest.t) : InstallationRequest.t :=
  {| InstallationRequest.id := InstallationRequest.id r;
     InstallationRequest.customerId := InstallationRequest.customerId r;
     InstallationRequest.productId := InstallationRequest.productId r;
     InstallationRequest.franchiseId := InstallationRequest.franchiseId r;
     InstallationRequest.status := st;
     InstallationRequest.assignedTechnicianId :=
       match technician with
       | Some a => Some a
       | None => InstallationRequest.assignedTechnicianId r
       end |}.

Definition updateInstallationRequestsWhereId (st : option InstallationRequestStatus.t)
  (technician : option string) (id : string) : M unit :=
  modify (fun db =>
    withInstallationRequests
      (map (fun r => if bool_decide (InstallationRequest.id r = id)
                     then setInstallationRequest st technician r else r)
           (installationRequests db))
      db).

(** Modelled from the spec: [logActionHistory] of [../utils/actionHistory]
    (missing) appends one entry to an append-only history. *)
Definition logActionHistory (e : ActionHistoryEntry) : M unit :=
  modify (fun db => withActionHistory (actionHistory db ++ [e]) db).

(** [getUserById], and the same lookup written in place by the callers. *)
Definition getUserById (userId : string) : M (option User.t) :=
  query (fun db => find (fun u => bool_decide (User.id u = userId)) (users db)).

Definition getFranchiseById (franchiseId : option string) : M (option Franchise.t) :=
  query (fun db =>
    find (fun f => bool_decide (Some (Franchise.id f) = franchiseId)) (franchises db)).

(** [getServiceRequestById]: the row found by id.  The relations joined to
    it, the parsed image lists and the payment view composed at read time
    are not kept: the operations below read columns of the row only. *)
Definition getServiceRequestById (id : string) : M (option ServiceRequest.t) :=
  query (fun db =>
    find (fun r => bool_decide (ServiceRequest.id r = id)) (serviceRequests db)).

(** ** Arguments of the operations *)

Module StatusData.

(** The optional [data] argument of [updateServiceRequestStatus]. *)
Record t : Type := mk {
  agentId : option string;
  completedAt : option string;
  scheduledDate : option string;
  paymentAmount : option Z;
  images : option (list string)
}.

End StatusData.

Module Evidence.

(** The optional [images] argument of the two validators. *)
Record t : Type := mk {
  beforeImages : option (list string);
  afterImages : option (list string)
}.

End Evidence.

Module InstallationData.

(** The [data] argument of [createInstallationServiceRequest]. *)
Record t : Type := mk {
  installationRequestId : string;
  assignedToId : option string;
  scheduledDate : option string;
  description : string
}.

End InstallationData.

Module CreateData.

(** The [data] argument of [createServiceRequest]. *)
Record t : Type := mk {
  productId : string;
  subscriptionId : option string;
  installationRequestId : option string;
  type : string;
  description : string;
  scheduledDate : option string;
  images : option (list string);
  requiresPayment : option bool;
  paymentAmount : option Z
}.

End CreateData.

Module Filters.

(** The [filters] argument of [getAllServiceRequests]. *)
Record t : Type := mk {
  status : option ServiceRequestStatus.t;
  type : option string;
  franchiseId : option string;
  customerId : option string
}.

End Filters.

(** ** The authentication plugin, [plugins/auth.ts] *)

Module Auth.

(** The payload of a verified token. *)
Record Decoded : Type := mkDecoded {
  userId : string;
  role : UserRole.t;
  franchiseAreaId : option string
}.

(** A request: its authorization header and the [user] property that the
    plugin declares on it. *)
Record Request : Type := mkRequest {
  authorization : option string;
  user : option Decoded
}.

(** What [reply.status(code).send(body)] sends. *)
Record Reply : Type := mkReply {
  statusCode : Z;
  error : string;
  message : string
}.

Definition unauthorized : Reply :=
  {| statusCode := 401; error := "Unauthorized";
     message := "Invalid or expired token" |}.

Definition forbiddenReply : Reply :=
  {| statusCode := 403; error := "Forbidden";
     message := "You do not have permission to access this resource" |}.

(** [authenticate].  The verification of the token, [request.jwtVerify], is
    an argument: it throws ([None]) or gives the payload together with the
    request as the verification leaves it.  The result is the request after
    the hook and the reply sent, if one was. *)
Definition authenticate (jwtVerify : Request -> option (Decoded * Request))
  (request : Request) : Request * option Reply :=
  match jwtVerify request with
  | Some (decoded, request') =>
      ({| authorization := authorization request'; user := Some decoded |}, None)
  | None => (request, Some unauthorized)
  end.

(** [authorizeRoles(roles)].  Reading [request.user.role] on a request
    without user throws, and the [catch] answers that like a failed
    verification. *)
Definition authorizeRoles (jwtVerify : Request -> option (Decoded * Request))
  (roles : list UserRole.t) (request : Request) : Request * option Reply :=
  match jwtVerify request with
  | Some (_, request') =>
      match user request' with
      | Some u =>
          if negb (existsb (fun r => bool_decide (r = role u)) roles)
          then (request', Some forbiddenReply)
          else (request', None)
      | None => (request', Some unauthorized)
      end
  | None => (request, Some unauthorized)
  end.

End Auth.

(** [data?.field] *)
Definition opt {A B} (data : option A) (field : A -> option B) : option B :=
  match data with
  | Some d => field d
  | None => None
  end.

(** ** The operations of [serviceRequests.service.ts] *)

Section Service.

(** Built-ins of the platform: [JSON.stringify] on an array of strings,
    [Date.prototype.toISOString] on an instant (milliseconds since the
    epoch) and the parsing done by [new Date(text)], which yields no instant
    for a text that is not a date. *)
Variable JSON_stringify : list string -> string.
Variable toISOString : Z -> string.
Variable parseDate : string -> option Z.

(** The transition table of [updateServiceRequestStatus]. *)
Definition validTransitions (s : ServiceRequestStatus.t) : list ServiceRequestStatus.t :=
  match s with
  | ServiceRequestStatus.CREATED =>
      [ServiceRequestStatus.ASSIGNED; ServiceRequestStatus.CANCELLED]
  | ServiceRequestStatus.ASSIGNED =>
      [ServiceRequestStatus.SCHEDULED; ServiceRequestStatus.CANCELLED]
  | ServiceRequestStatus.SCHEDULED =>
      [ServiceRequestStatus.IN_PROGRESS; ServiceRequestStatus.CANCELLED]
  | ServiceRequestStatus.IN_PROGRESS =>
      [ServiceRequestStatus.PAYMENT_PENDING; ServiceRequestStatus.COMPLETED;
       ServiceRequestStatus.CANCELLED]
  | ServiceRequestStatus.PAYMENT_PENDING =>
      [ServiceRequestStatus.COMPLETED; ServiceRequestStatus.CANCELLED]
  | ServiceRequestStatus.COMPLETED => []
  | ServiceRequestStatus.CANCELLED =>
      [ServiceRequestStatus.ASSIGNED; ServiceRequestStatus.SCHEDULED]
  end.

(** The message of the error thrown for a pair outside the table. *)
Definition invalidTransitionMessage (currentStatus status : ServiceRequestStatus.t)
  : string :=
  "Invalid status transition from " +:+ ServiceRequestStatus.name currentStatus
  +:+ " to " +:+ ServiceRequestStatus.name status
  +:+ ". Valid transitions are: "
  +:+ orElse (join ", " (map ServiceRequestStatus.name (validTransitions currentStatus)))
             "none".

(** [if (cond) object[key] = value] *)
Definition assignIf (cond : bool) (key : string) (value : Value)
  (object : gmap string Value) : gmap string Value :=
  if cond then <[key := value]> object else object.

Definition stringValue (o : option string) : Value :=
  match o with Some s => VString s | None => VUndefined end.

Definition numberValue (o : option Z) : Value :=
  match o with Some n => VNumber n | None => VUndefined end.

Definition imagesValue (o : option (list string)) : list string :=
  match o with Some l => l | None => [] end.

(** The object [updateData] that [updateServiceRequestStatus] builds, key
    by key as the source assigns them. *)
Definition updateData (now : Z) (status : ServiceRequestStatus.t)
  (data : option StatusData.t) : gmap string Value :=
  let u : gmap string Value :=
    <["updatedAt" := VString (toISOString now)]> {["status" := VStatus status]} in
  let u :=
    assignIf (truthy (opt data StatusData.agentId))
      "assignedAgentId" (stringValue (opt data StatusData.agentId)) u in
  let u :=
    assignIf (truthy (opt data StatusData.scheduledDate))
      "scheduledDate" (stringValue (opt data StatusData.scheduledDate)) u in
  let u :=
    assignIf (truthyNumber (opt data StatusData.paymentAmount))
      "paymentAmount" (numberValue (opt data StatusData.paymentAmount)) u in
  let u :=
    assignIf (bool_decide (status = ServiceRequestStatus.COMPLETED))
      "completedAt" (VString (toISOString now)) u in
  let imageField :=
    if bool_decide (status = ServiceRequestStatus.IN_PROGRESS)
    then "beforeImages" else "afterImages" in
  assignIf (negb (noImages (opt data StatusData.images)))
    imageField (VString (JSON_stringify (imagesValue (opt data StatusData.images)))) u.

Definition updateServiceRequestStatus (now : Z) (id : string)
  (status : ServiceRequestStatus.t) (user : ActingUser) (data : option StatusData.t)
  : M (option ServiceRequest.t) :=
  let* found := getServiceRequestById id in
  match found with
  | None => throw (notFound "Service Request")
  | Some serviceRequest =>
    let currentStatus := ServiceRequest.status serviceRequest in
    when (negb (includes (validTransitions currentStatus) status))
         (throw (badRequest (invalidTransitionMessage currentStatus status))) ;;
    match status with
    | ServiceRequestStatus.ASSIGNED =>
        when (negb (truthy (opt data StatusData.agentId)))
             (throw (badRequest "Agent ID is required for assignment"))
    | ServiceRequestStatus.SCHEDULED =>
        when (negb (truthy (ServiceRequest.assignedToId serviceRequest)))
             (throw (badRequest "Cannot schedule without assigned agent")) ;;
        when (negb (truthy (opt data StatusData.scheduledDate)))
             (throw (badRequest "Scheduled date is required"))
    | ServiceRequestStatus.IN_PROGRESS =>
        when (bool_decide (ServiceRequest.type serviceRequest = "installation")
              && noImages (opt data StatusData.images))
             (throw (badRequest
                "Before images are required to start installation service requests"))
    | ServiceRequestStatus.PAYMENT_PENDING =>
        when (negb (ServiceRequest.requiresPayment serviceRequest))
             (throw (badRequest "This service request does not require payment")) ;;
        when (match opt data StatusData.paymentAmount with
              | Some n => negb (truthyNumber (Some n)) || (n <=? 0)
              | None => true
              end)
             (throw (badRequest "Payment amount is required")) ;;
        when (noImages (opt data StatusData.images))
             (throw (badRequest
                "Completion images are required before requesting payment"))
    | ServiceRequestStatus.COMPLETED =>
        when (noImages (opt data StatusData.images))
             (throw (badRequest "Completion images are required to mark as completed")) ;;
        when (ServiceRequest.requiresPayment serviceRequest
              && bool_decide (currentStatus = ServiceRequestStatus.IN_PROGRESS))
             (throw (badRequest
                "Service requests requiring payment must go through PAYMENT_PENDING status first"))
    | _ => ret tt
    end ;;
    updateServiceRequestsWhereId (updateData now status data) id ;;
    logActionHistory
      {| subject := OnEntity "service_request" id;
         label := ActionName
           ("status_updated_to_" +:+ toLowerCase (ServiceRequestStatus.name status));
         fromStatus := OfServiceRequest currentStatus;
         toStatus := OfServiceRequest status;
         performedBy := userId user |} ;;
    match ServiceRequest.subscriptionId serviceRequest with
    | Some subscriptionId =>
        when (truthy (Some subscriptionId))
          (logActionHistory
            {| subject := OnEntity "subscription" subscriptionId;
               label := ActionName
                 ("service_request_" +:+ toLowerCase (ServiceRequestStatus.name status));
               fromStatus := NoStatus;
               toStatus := NoStatus;
               performedBy := userId user |})
    | None => ret tt
    end ;;
    getServiceRequestById id
  end.

(** The second validator of the file.  No function of the file calls it. *)
Definition validateInstallationSpecificTransitions (sr : ServiceRequest.t)
  (currentStatus newStatus : ServiceRequestStatus.t) (images : option Evidence.t)
  : M unit :=
  when (bool_decide (currentStatus = ServiceRequestStatus.IN_PROGRESS)
        && bool_decide (newStatus = ServiceRequestStatus.COMPLETED))
       (throw (badRequest
          "Installation service requests must go through PAYMENT_PENDING status before completion")) ;;
  when (bool_decide (currentStatus = ServiceRequestStatus.IN_PROGRESS)
        && bool_decide (newStatus = ServiceRequestStatus.PAYMENT_PENDING))
       (when (noImages (opt images Evidence.afterImages))
          (throw (badRequest
             "Installation completion images are required before moving to payment pending"))) ;;
  when (bool_decide (currentStatus = ServiceRequestStatus.PAYMENT_PENDING)
        && bool_decide (newStatus = ServiceRequestStatus.COMPLETED))
       (let* installationPayment :=
          query (fun db =>
            find (fun p =>
                    match ServiceRequest.installationRequestId sr with
                    | Some i =>
                        bool_decide (Payment.installationRequestId p = Some i)
                        && bool_decide (Payment.status p = PaymentStatus.COMPLETED)
                    | None => false
                    end)
                 (payments db)) in
        match installationPayment with
        | None => throw (badRequest "please complete payment first")
        | Some _ => ret tt
        end).

(** The first validator of the file.  No function of the file calls it.
    It reads [sr.requirePayment], and on the SCHEDULED to IN_PROGRESS edge it
    reads [images.beforeImages] without guarding against a missing [images]. *)
Definition validateServiceRequestTransition (sr : ServiceRequest.t)
  (newStatus : ServiceRequestStatus.t) (images : option Evidence.t) : M unit :=
  let currentStatus := ServiceRequest.status sr in
  let requirePayment :=
    match ServiceRequest.requirePayment sr with Some b => b | None => false end in
  when (bool_decide (currentStatus = ServiceRequestStatus.SCHEDULED)
        && bool_decide (newStatus = ServiceRequestStatus.IN_PROGRESS))
       (when (negb (bool_decide (ServiceRequest.type sr = ServiceRequestType.INSTALLATION)))
          (match images with
           | None => throw TypeError
           | Some _ =>
               when (noImages (opt images Evidence.beforeImages))
                 (throw (badRequest
                    "Before images are required when starting service work"))
           end)) ;;
  when (bool_decide (currentStatus = ServiceRequestStatus.IN_PROGRESS)
        && bool_decide (newStatus = ServiceRequestStatus.PAYMENT_PENDING))
       (when (negb requirePayment)
          (throw (badRequest "This service request does not require payment")) ;;
        when (noImages (opt images Evidence.afterImages))
          (throw (badRequest
             "After images are required before moving to payment pending"))) ;;
  when (bool_decide (currentStatus = ServiceRequestStatus.IN_PROGRESS)
        && bool_decide (newStatus = ServiceRequestStatus.COMPLETED))
       (when requirePayment
          (throw (badRequest
             "Service requests requiring payment must go through PAYMENT_PENDING status first")) ;;
        when (noImages (opt images Evidence.afterImages))
          (throw (badRequest
             "After images are required when completing service work"))) ;;
  when (bool_decide (ServiceRequest.type sr = ServiceRequestType.INSTALLATION))
       (validateInstallationSpecificTransitions sr currentStatus newStatus images).

(** The synchronizer of the file.  No function of the file calls it.  A
    service status without a case in the [switch] leaves [installationStatus]
    at [null], and the update that follows writes it. *)
Definition syncInstallationRequestStatus (installationRequestId : string)
  (serviceRequestStatus : ServiceRequestStatus.t) (user : ActingUser)
  (serviceRequestId : string) : M unit :=
  let '(installationStatus, installationActionType) :=
    match serviceRequestStatus with
    | ServiceRequestStatus.IN_PROGRESS =>
        (Some InstallationRequestStatus.INSTALLATION_IN_PROGRESS,
         Some ActionType.INSTALLATION_REQUEST_IN_PROGRESS)
    | ServiceRequestStatus.PAYMENT_PENDING =>
        (Some InstallationRequestStatus.PAYMENT_PENDING,
         Some ActionType.INSTALLATION_REQUEST_COMPLETED)
    | ServiceRequestStatus.COMPLETED =>
        (Some InstallationRequestStatus.INSTALLATION_COMPLETED,
         Some ActionType.INSTALLATION_REQUEST_COMPLETED)
    | ServiceRequestStatus.CANCELLED =>
        (Some InstallationRequestStatus.CANCELLED,
         Some ActionType.INSTALLATION_REQUEST_CANCELLED)
    | _ => (None, None)
    end in
  updateInstallationRequestsWhereId installationStatus None installationRequestId ;;
  logActionHistory
    {| subject := OnInstallationRequest installationRequestId;
       label := ActionOfType installationActionType;
       fromStatus := OfServiceRequest serviceRequestStatus;
       toStatus := OfServiceRequest ServiceRequestStatus.ASSIGNED;
       performedBy := userId user |}.

Definition assignServiceAgent (now : Z) (id : string) (assignedToId : string)
  (user : ActingUser) : M (option ServiceRequest.t) :=
  let* found := getServiceRequestById id in
  match found with
  | None => throw (notFound "Service Request")
  | Some sr =>
    when (negb (bool_decide (role user = UserRole.ADMIN)
                || bool_decide (role user = UserRole.FRANCHISE_OWNER)))
         (throw (forbidden "You do not have permission to assign service agents")) ;;
    when (bool_decide (role user = UserRole.FRANCHISE_OWNER))
         (let* franchise := getFranchiseById (ServiceRequest.franchiseId sr) in
          match franchise with
          | Some f =>
              when (negb (bool_decide (Franchise.ownerId f = Some (userId user))))
                (throw (forbidden "Service request is not in your franchise area"))
          | None => throw (forbidden "Service request is not in your franchise area")
          end) ;;
    let* agent := getUserById assignedToId in
    match agent with
    | None => throw (badRequest "Invalid service agent")
    | Some a =>
        when (negb (bool_decide (User.role a = UserRole.SERVICE_AGENT)))
          (throw (badRequest "Invalid service agent"))
    end ;;
    let oldStatus := ServiceRequest.status sr in
    updateServiceRequestsWhereId
      (<["updatedAt" := VString (toISOString now)]>
         (<["status" := VStatus ServiceRequestStatus.ASSIGNED]>
            {["assignedToId" := VString assignedToId]}))
      id ;;
    logActionHistory
      {| subject := OnServiceRequest id;
         label := ActionOfType (Some ActionType.SERVICE_REQUEST_ASSIGNED);
         fromStatus := OfServiceRequest oldStatus;
         toStatus := OfServiceRequest ServiceRequestStatus.ASSIGNED;
         performedBy := userId user |} ;;
    getServiceRequestById id
  end.

Definition getActionTypeForStatus (status : ServiceRequestStatus.t) : ActionType.t :=
  match status with
  | ServiceRequestStatus.ASSIGNED => ActionType.SERVICE_REQUEST_ASSIGNED
  | ServiceRequestStatus.SCHEDULED => ActionType.SERVICE_REQUEST_SCHEDULED
  | ServiceRequestStatus.IN_PROGRESS => ActionType.SERVICE_REQUEST_IN_PROGRESS
  | ServiceRequestStatus.PAYMENT_PENDING => ActionType.SERVICE_REQUEST_COMPLETED
  | ServiceRequestStatus.COMPLETED => ActionType.SERVICE_REQUEST_COMPLETED
  | ServiceRequestStatus.CANCELLED => ActionType.SERVICE_REQUEST_CANCELLED
  | _ => ActionType.SERVICE_REQUEST_CREATED
  end.

Definition scheduleServiceRequest (now : Z) (id : string) (scheduledDate : string)
  (user : ActingUser) : M (option ServiceRequest.t) :=
  let* found := getServiceRequestById id in
  match found with
  | None => throw (notFound "Service Request")
  | Some sr =>
    let* hasPermission :=
      if bool_decide (role user = UserRole.ADMIN) then ret true
      else if bool_decide (role user = UserRole.SERVICE_AGENT)
              && bool_decide (ServiceRequest.assignedToId sr = Some (userId user))
      then ret true
      else if bool_decide (role user = UserRole.FRANCHISE_OWNER)
      then
        let* franchise := getFranchiseById (ServiceRequest.franchiseId sr) in
        ret match franchise with
            | Some f => bool_decide (Franchise.ownerId f = Some (userId user))
            | None => false
            end
      else ret false in
    when (negb hasPermission)
         (throw (forbidden "You do not have permission to schedule this service request")) ;;
    let scheduledDateTime := parseDate scheduledDate in
    when (match scheduledDateTime with
          | Some t => t <=? now
          | None => false
          end)
         (throw (badRequest "Scheduled date must be in the future")) ;;
    let oldStatus := ServiceRequest.status sr in
    match scheduledDateTime with
    | None => throw RangeError
    | Some t =>
        updateServiceRequestsWhereId
          (<["updatedAt" := VString (toISOString now)]>
             (<["status" := VStatus ServiceRequestStatus.SCHEDULED]>
                {["scheduledDate" := VString (toISOString t)]}))
          id
    end ;;
    logActionHistory
      {| subject := OnServiceRequest id;
         label := ActionOfType (Some ActionType.SERVICE_REQUEST_SCHEDULED);
         fromStatus := OfServiceRequest oldStatus;
         toStatus := OfServiceRequest ServiceRequestStatus.SCHEDULED;
         performedBy := userId user |} ;;
    getServiceRequestById id
  end.

(** [a || null] on an optional string. *)
Definition orNull (o : option string) : option string :=
  if truthy o then o else None.

Definition insertServiceRequest (r : ServiceRequest.t) : M unit :=
  modify (fun db => withServiceRequests (serviceRequests db ++ [r]) db).

Definition createInstallationServiceRequest (now : Z) (id : string)
  (data : InstallationData.t) (user : ActingUser) : M (option ServiceRequest.t) :=
  let* found :=
    query (fun db =>
      find (fun r => bool_decide
                       (InstallationRequest.id r = InstallationData.installationRequestId data))
           (installationRequests db)) in
  match found with
  | None => throw (notFound "Installation Request")
  | Some installationRequest =>
    let* existingServiceRequest :=
      query (fun db =>
        find (fun r =>
                bool_decide (ServiceRequest.installationRequestId r
                             = Some (InstallationData.installationRequestId data))
                && bool_decide (ServiceRequest.type r = ServiceRequestType.INSTALLATION))
             (serviceRequests db)) in
    match existingServiceRequest with
    | Some existing =>
        updateServiceRequestsWhereId
          (<["assignedToId" := match InstallationData.assignedToId data with
                               | Some a => VString a
                               | None => VUndefined
                               end]>
             {["status" := VStatus ServiceRequestStatus.SCHEDULED]})
          (ServiceRequest.id existing) ;;
        updateInstallationRequestsWhereId
          (Some InstallationRequestStatus.INSTALLATION_SCHEDULED) None
          (InstallationRequest.id installationRequest)
    | None =>
        when (bool_decide (role user = UserRole.FRANCHISE_OWNER))
          (let* franchise :=
             getFranchiseById (Some (InstallationRequest.franchiseId installationRequest)) in
           match franchise with
           | Some f =>
               when (negb (bool_decide (Franchise.ownerId f = Some (userId user))))
                 (throw (forbidden "Installation request is not in your franchise area"))
           | None => throw (forbidden "Installation request is not in your franchise area")
           end) ;;
        match InstallationData.assignedToId data with
        | Some assignedToId =>
            when (truthy (Some assignedToId))
              (let* agent := getUserById assignedToId in
               match agent with
               | None => throw (badRequest "Invalid service agent")
               | Some a =>
                   when (negb (bool_decide (User.role a = UserRole.SERVICE_AGENT)))
                     (throw (badRequest "Invalid service agent"))
               end)
        | None => ret tt
        end ;;
        insertServiceRequest
          {| ServiceRequest.id := id;
             ServiceRequest.subscriptionId := None;
             ServiceRequest.customerId := InstallationRequest.customerId installationRequest;
             ServiceRequest.productId := InstallationRequest.productId installationRequest;
             ServiceRequest.installationRequestId :=
               Some (InstallationData.installationRequestId data);
             ServiceRequest.type := ServiceRequestType.INSTALLATION;
             ServiceRequest.description := InstallationData.description data;
             ServiceRequest.images := None;
             ServiceRequest.status :=
               if truthy (InstallationData.assignedToId data)
               then ServiceRequestStatus.SCHEDULED else ServiceRequestStatus.CREATED;
             ServiceRequest.assignedToId := orNull (InstallationData.assignedToId data);
             ServiceRequest.franchiseId :=
               Some (InstallationRequest.franchiseId installationRequest);
             ServiceRequest.scheduledDate := orNull (InstallationData.scheduledDate data);
             ServiceRequest.completedDate := None;
             ServiceRequest.beforeImages := None;
             ServiceRequest.afterImages := None;
             ServiceRequest.requiresPayment := true;
             ServiceRequest.paymentAmount := None;
             ServiceRequest.createdAt := toISOString now;
             ServiceRequest.updatedAt := toISOString now;
             ServiceRequest.requirePayment := Some true |} ;;
        updateInstallationRequestsWhereId
          (Some InstallationRequestStatus.INSTALLATION_SCHEDULED)
          (InstallationData.assignedToId data)
          (InstallationRequest.id installationRequest)
    end ;;
    logActionHistory
      {| subject := OnInstallationRequest (InstallationData.installationRequestId data);
         label := ActionOfType (Some ActionType.INSTALLATION_REQUEST_SCHEDULED);
         fromStatus := OfInstallationRequest (InstallationRequest.status installationRequest);
         toStatus :=
           OfInstallationRequest (Some InstallationRequestStatus.INSTALLATION_SCHEDULED);
         performedBy := userId user |} ;;
    getServiceRequestById id
  end.

(** Modelled from the spec: [createServiceRequestStatusAction] of
    [../utils/actionHistory] (missing) builds the history entry of a status
    change of a service request, here the one of its creation. *)
Definition createServiceRequestStatusAction (id : string)
  (from : option ServiceRequestStatus.t) (to : ServiceRequestStatus.t)
  (performedBy : string) : ActionHistoryEntry :=
  {| subject := OnServiceRequest id;
     label := ActionOfType (Some ActionType.SERVICE_REQUEST_CREATED);
     fromStatus := match from with Some s => OfServiceRequest s | None => NoStatus end;
     toStatus := OfServiceRequest to;
     performedBy := performedBy |}.

Definition createServiceRequest (now : Z) (id : string) (data : CreateData.t)
  (user : ActingUser) : M (option ServiceRequest.t) :=
  let* product :=
    query (fun db =>
      find (fun p => bool_decide (Product.id p = CreateData.productId data))
           (products db)) in
  match product with
  | None => throw (notFound "Product")
  | Some _ =>
    let* franchiseId :=
      if truthy (CreateData.subscriptionId data) then
        let* subscription :=
          query (fun db =>
            find (fun s => bool_decide
                             (Some (Subscription.id s) = CreateData.subscriptionId data))
                 (subscriptions db)) in
        match subscription with
        | None => throw (notFound "Subscription")
        | Some s =>
            when (negb (bool_decide (Subscription.customerId s = userId user)))
              (throw (forbidden "Subscription does not belong to you")) ;;
            ret (Some (Subscription.franchiseId s))
        end
      else if truthy (CreateData.installationRequestId data) then
        let* installationRequest :=
          query (fun db =>
            find (fun r => bool_decide
                             (Some (InstallationRequest.id r)
                              = CreateData.installationRequestId data))
                 (installationRequests db)) in
        match installationRequest with
        | None => throw (notFound "Installation Request")
        | Some r =>
            when (negb (bool_decide (InstallationRequest.customerId r = userId user)))
              (throw (forbidden "Installation request does not belong to you")) ;;
            ret (Some (InstallationRequest.franchiseId r))
        end
      else
        let* userFromDb := getUserById (userId user) in
        match opt userFromDb User.city with
        | Some city =>
            when (negb (truthy (Some city)))
              (throw (badRequest "User city not found. Cannot determine franchise.")) ;;
            let* franchise :=
              query (fun db =>
                find (fun f => bool_decide (Franchise.city f = city)) (franchises db)) in
            match franchise with
            | None => throw (badRequest "No franchise found for your location")
            | Some f => ret (Some (Franchise.id f))
            end
        | None => throw (badRequest "User city not found. Cannot determine franchise.")
        end in
    insertServiceRequest
      {| ServiceRequest.id := id;
         ServiceRequest.subscriptionId := orNull (CreateData.subscriptionId data);
         ServiceRequest.customerId := userId user;
         ServiceRequest.productId := CreateData.productId data;
         ServiceRequest.installationRequestId :=
           orNull (CreateData.installationRequestId data);
         ServiceRequest.type := CreateData.type data;
         ServiceRequest.description := CreateData.description data;
         ServiceRequest.images :=
           match CreateData.images data with
           | Some (i :: l) => Some (JSON_stringify (i :: l))
           | _ => None
           end;
         ServiceRequest.status := ServiceRequestStatus.CREATED;
         ServiceRequest.assignedToId := None;
         ServiceRequest.franchiseId := franchiseId;
         ServiceRequest.scheduledDate := orNull (CreateData.scheduledDate data);
         ServiceRequest.completedDate := None;
         ServiceRequest.beforeImages := None;
         ServiceRequest.afterImages := None;
         ServiceRequest.requiresPayment :=
           match CreateData.requiresPayment data with Some b => b | None => false end;
         ServiceRequest.paymentAmount :=
           if truthyNumber (CreateData.paymentAmount data)
           then CreateData.paymentAmount data else None;
         ServiceRequest.createdAt := toISOString now;
         ServiceRequest.updatedAt := toISOString now;
         ServiceRequest.requirePayment := None |} ;;
    logActionHistory
      (createServiceRequestStatusAction id None ServiceRequestStatus.CREATED (userId user)) ;;
    getServiceRequestById id
  end.

(** ** Reading service requests *)

(** [JSON.parse] on the text of an array of strings; [None] when it throws. *)
Variable JSON_parse : string -> option (list string).

(** Modelled from the spec: [parseJsonSafe] of [../utils/helpers] (missing)
    parses a stored text and gives the fallback for a missing text and for a
    text that does not parse. *)
Definition parseJsonSafe (text : option string) (fallback : list string) : list string :=
  match text with
  | Some t =>
      match JSON_parse t with
      | Some l => l
      | None => fallback
      end
  | None => fallback
  end.

(** The three image lists of the object that [getServiceRequestById]
    returns: [images], [beforeImages] and [afterImages], each parsed from its
    column with the empty list as fallback. *)
Definition parsedImages (r : ServiceRequest.t)
  : list string * list string * list string :=
  (parseJsonSafe (ServiceRequest.images r) [],
   parseJsonSafe (ServiceRequest.beforeImages r) [],
   parseJsonSafe (ServiceRequest.afterImages r) []).

(** [orderBy desc(createdAt)]: the rows by decreasing [createdAt], compared
    as texts.  Rows with the same [createdAt] come in the order that the
    merge sort leaves them. *)
Definition newerFirst (a b : ServiceRequest.t) : Prop :=
  String.leb (ServiceRequest.createdAt b) (ServiceRequest.createdAt a) = true.

#[local] Instance newerFirst_dec a b : Decision (newerFirst a b).
Proof. unfold newerFirst. apply _. Defined.

(** The conditions that [getAllServiceRequests] pushes for the filters. *)
Definition filterConditions (filters : Filters.t) : list (ServiceRequest.t -> bool) :=
  (match Filters.status filters with
   | Some st => [fun r => bool_decide (ServiceRequest.status r = st)]
   | None => []
   end)
  ++ (if truthy (Filters.type filters)
      then [fun r => bool_decide (Some (ServiceRequest.type r) = Filters.type filters)]
      else [])
  ++ (if truthy (Filters.franchiseId filters)
      then [fun r => bool_decide (ServiceRequest.franchiseId r = Filters.franchiseId filters)]
      else [])
  ++ (if truthy (Filters.customerId filters)
      then [fun r => bool_decide
                       (Some (ServiceRequest.customerId r) = Filters.customerId filters)]
      else []).

(** [getAllServiceRequests]: the rows that meet every condition, newest
    first.  As for [getServiceRequestById], the relations joined to each row
    are not kept; the image lists of a row are [parsedImages]. *)
Definition getAllServiceRequests (filters : Filters.t) (user : ActingUser)
  : M (list ServiceRequest.t) :=
  let* roleConditions :=
    if bool_decide (role user = UserRole.FRANCHISE_OWNER) then
      let* userFromDb := getUserById (userId user) in
      let* ownedFranchise :=
        query (fun db =>
          find (fun f => bool_decide (Franchise.ownerId f = Some (userId user)))
               (franchises db)) in
      match ownedFranchise with
      | None => ret None
      | Some f =>
          ret (Some [fun r => bool_decide
                                (ServiceRequest.franchiseId r = Some (Franchise.id f))])
      end
    else if bool_decide (role user = UserRole.SERVICE_AGENT) then
      ret (Some [fun r => bool_decide
                            (ServiceRequest.assignedToId r = Some (userId user))])
    else if bool_decide (role user = UserRole.CUSTOMER) then
      ret (Some [fun r => bool_decide (ServiceRequest.customerId r = userId user)])
    else ret (Some []) in
  match roleConditions with
  | None => ret []
  | Some conditions =>
      let whereConditions := (conditions ++ filterConditions filters)%list in
      query (fun db =>
        merge_sort newerFirst
          (List.filter (fun r => forallb (fun c => c r) whereConditions)
             (serviceRequests db)))
  end.

(** ** Facts kept by every call *)

(** The columns of a row that no operation of the file writes after the
    insert. *)
Definition identity (r : ServiceRequest.t)
  : string * option string * string * string * option string * string * string
    * option string * bool * string :=
  (ServiceRequest.id r, ServiceRequest.subscriptionId r, ServiceRequest.customerId r,
   ServiceRequest.productId r, ServiceRequest.installationRequestId r,
   ServiceRequest.type r, ServiceRequest.description r, ServiceRequest.franchiseId r,
   ServiceRequest.requiresPayment r, ServiceRequest.createdAt r).

(** ** The transition table, as the specification lists it *)

(** The edges of the static transition table, written out pair by pair from
    the specification; [validTransitions] above is the table of the code. *)
Definition tableEdge (current target : ServiceRequestStatus.t) : bool :=
  match current, target with
  | ServiceRequestStatus.CREATED, ServiceRequestStatus.ASSIGNED
  | ServiceRequestStatus.CREATED, ServiceRequestStatus.CANCELLED
  | ServiceRequestStatus.ASSIGNED, ServiceRequestStatus.SCHEDULED
  | ServiceRequestStatus.ASSIGNED, ServiceRequestStatus.CANCELLED
  | ServiceRequestStatus.SCHEDULED, ServiceRequestStatus.IN_PROGRESS
  | ServiceRequestStatus.SCHEDULED, ServiceRequestStatus.CANCELLED
  | ServiceRequestStatus.IN_PROGRESS, ServiceRequestStatus.PAYMENT_PENDING
  | ServiceRequestStatus.IN_PROGRESS, ServiceRequestStatus.COMPLETED
  | ServiceRequestStatus.IN_PROGRESS, ServiceRequestStatus.CANCELLED
  | ServiceRequestStatus.PAYMENT_PENDING, ServiceRequestStatus.COMPLETED
  | ServiceRequestStatus.PAYMENT_PENDING, ServiceRequestStatus.CANCELLED
  | ServiceRequestStatus.CANCELLED, ServiceRequestStatus.ASSIGNED
  | ServiceRequestStatus.CANCELLED, ServiceRequestStatus.SCHEDULED => true
  | _, _ => false
  end.

(** ** What an accepted status update decides and writes

    The three definitions below restate [updateServiceRequestStatus] as a
    decision and an effect; [updateServiceRequestStatus_decides] proves that
    the operation is exactly that. *)

(** The message of the first check of [updateServiceRequestStatus] that a
    request fails, in the order of the source; [None] when all pass. *)
Definition violation (sr : ServiceRequest.t) (status : ServiceRequestStatus.t)
  (data : option StatusData.t) : option string :=
  let currentStatus := ServiceRequest.status sr in
  if negb (includes (validTransitions currentStatus) status)
  then Some (invalidTransitionMessage currentStatus status)
  else
    match status with
    | ServiceRequestStatus.ASSIGNED =>
        if negb (truthy (opt data StatusData.agentId))
        then Some "Agent ID is required for assignment" else None
    | ServiceRequestStatus.SCHEDULED =>
        if negb (truthy (ServiceRequest.assignedToId sr))
        then Some "Cannot schedule without assigned agent"
        else if negb (truthy (opt data StatusData.scheduledDate))
        then Some "Scheduled date is required" else None
    | ServiceRequestStatus.IN_PROGRESS =>
        if bool_decide (ServiceRequest.type sr = "installation")
           && noImages (opt data StatusData.images)
        then Some "Before images are required to start installation service requests"
        else None
    | ServiceRequestStatus.PAYMENT_PENDING =>
        if negb (ServiceRequest.requiresPayment sr)
        then Some "This service request does not require payment"
        else if match opt data StatusData.paymentAmount with
                | Some n => negb (truthyNumber (Some n)) || (n <=? 0)
                | None => true
                end
        then Some "Payment amount is required"
        else if noImages (opt data StatusData.images)
        then Some "Completion images are required before requesting payment"
        else None
    | ServiceRequestStatus.COMPLETED =>
        if noImages (opt data StatusData.images)
        then Some "Completion images are required to mark as completed"
        else if ServiceRequest.requiresPayment sr
                && bool_decide (currentStatus = ServiceRequestStatus.IN_PROGRESS)
        then Some "Service requests requiring payment must go through PAYMENT_PENDING status first"
        else None
    | _ => None
    end.

(** The row that the update of an accepted transition leaves in place of
    row [r]: the columns that [updateData] reaches. *)
Definition written (now : Z) (status : ServiceRequestStatus.t)
  (data : option StatusData.t) (r : ServiceRequest.t) : ServiceRequest.t :=
  {| ServiceRequest.id := ServiceRequest.id r;
     ServiceRequest.subscriptionId := ServiceRequest.subscriptionId r;
     ServiceRequest.customerId := ServiceRequest.customerId r;
     ServiceRequest.productId := ServiceRequest.productId r;
     ServiceRequest.installationRequestId := ServiceRequest.installationRequestId r;
     ServiceRequest.type := ServiceRequest.type r;
     ServiceRequest.description := ServiceRequest.description r;
     ServiceRequest.images := ServiceRequest.images r;
     ServiceRequest.status := status;
     ServiceRequest.assignedToId := ServiceRequest.assignedToId r;
     ServiceRequest.franchiseId := ServiceRequest.franchiseId r;
     ServiceRequest.scheduledDate :=
       if truthy (opt data StatusData.scheduledDate)
       then opt data StatusData.scheduledDate else ServiceRequest.scheduledDate r;
     ServiceRequest.completedDate := ServiceRequest.completedDate r;
     ServiceRequest.beforeImages :=
       if negb (noImages (opt data StatusData.images))
          && bool_decide (status = ServiceRequestStatus.IN_PROGRESS)
       then Some (JSON_stringify (imagesValue (opt data StatusData.images)))
       else ServiceRequest.beforeImages r;
     ServiceRequest.afterImages :=
       if negb (noImages (opt data StatusData.images))
          && negb (bool_decide (status = ServiceRequestStatus.IN_PROGRESS))
       then Some (JSON_stringify (imagesValue (opt data StatusData.images)))
       else ServiceRequest.afterImages r;
     ServiceRequest.requiresPayment := ServiceRequest.requiresPayment r;
     ServiceRequest.paymentAmount :=
       if truthyNumber (opt data StatusData.paymentAmount)
       then opt data StatusData.paymentAmount else ServiceRequest.paymentAmount r;
     ServiceRequest.createdAt := ServiceRequest.createdAt r;
     ServiceRequest.updatedAt := toISOString now;
     ServiceRequest.requirePayment := ServiceRequest.requirePayment r |}.

(** The store after an accepted transition of the request [sr]. *)
Definition committed (now : Z) (id : string) (status : ServiceRequestStatus.t)
  (user : ActingUser) (data : option StatusData.t) (sr : ServiceRequest.t) (db : Db)
  : Db :=
  {| serviceRequests :=
       map (fun r => if bool_decide (ServiceRequest.id r = id)
                     then written now status data r else r)
           (serviceRequests db);
     installationRequests := installationRequests db;
     users := users db;
     franchises := franchises db;
     payments := payments db;
     products := products db;
     subscriptions := subscriptions db;
     actionHistory :=
       (actionHistory db
        ++ [{| subject := OnEntity "service_request" id;
               label := ActionName
                 ("status_updated_to_" +:+ toLowerCase (ServiceRequestStatus.name status));
               fromStatus := OfServiceRequest (ServiceRequest.status sr);
               toStatus := OfServiceRequest status;
               performedBy := userId user |}])
       ++ match ServiceRequest.subscriptionId sr with
          | Some subscriptionId =>
              if truthy (Some subscriptionId)
              then [{| subject := OnEntity "subscription" subscriptionId;
                       label := ActionName
                         ("service_request_"
                          +:+ toLowerCase (ServiceRequestStatus.name status));
                       fromStatus := NoStatus;
                       toStatus := NoStatus;
                       performedBy := userId user |}]
              else []
          | None => []
          end |}.


(** The row that [assignServiceAgent] leaves in place of row [r]. *)
Definition assignedTo (now : Z) (agent : string) (r : ServiceRequest.t)
  : ServiceRequest.t :=
  {| ServiceRequest.id := ServiceRequest.id r;
     ServiceRequest.subscriptionId := ServiceRequest.subscriptionId r;
     ServiceRequest.customerId := ServiceRequest.customerId r;
     ServiceRequest.productId := ServiceRequest.productId r;
     ServiceRequest.installationRequestId := ServiceRequest.installationRequestId r;
     ServiceRequest.type := ServiceRequest.type r;
     ServiceRequest.description := ServiceRequest.description r;
     ServiceRequest.images := ServiceRequest.images r;
     ServiceRequest.status := ServiceRequestStatus.ASSIGNED;
     ServiceRequest.assignedToId := Some agent;
     ServiceRequest.franchiseId := ServiceRequest.franchiseId r;
     ServiceRequest.scheduledDate := ServiceRequest.scheduledDate r;
     ServiceRequest.completedDate := ServiceRequest.completedDate r;
     ServiceRequest.beforeImages := ServiceRequest.beforeImages r;
     ServiceRequest.afterImages := ServiceRequest.afterImages r;
     ServiceRequest.requiresPayment := ServiceRequest.requiresPayment r;
     ServiceRequest.paymentAmount := ServiceRequest.paymentAmount r;
     ServiceRequest.createdAt := ServiceRequest.createdAt r;
     ServiceRequest.updatedAt := toISOString now;
     ServiceRequest.requirePayment := ServiceRequest.requirePayment r |}.

(** The row that [scheduleServiceRequest] leaves in place of row [r]. *)
Definition scheduledAt (now : Z) (instant : Z) (r : ServiceRequest.t)
  : ServiceRequest.t :=
  {| ServiceRequest.id := ServiceRequest.id r;
     ServiceRequest.subscriptionId := ServiceRequest.subscriptionId r;
     ServiceRequest.customerId := ServiceRequest.customerId r;
     ServiceRequest.productId := ServiceRequest.productId r;
     ServiceRequest.installationRequestId := ServiceRequest.installationRequestId r;
     ServiceRequest.type := ServiceRequest.type r;
     ServiceRequest.description := ServiceRequest.description r;
     ServiceRequest.images := ServiceRequest.images r;
     ServiceRequest.status := ServiceRequestStatus.SCHEDULED;
     ServiceRequest.assignedToId := ServiceRequest.assignedToId r;
     ServiceRequest.franchiseId := ServiceRequest.franchiseId r;
     ServiceRequest.scheduledDate := Some (toISOString instant);
     ServiceRequest.completedDate := ServiceRequest.completedDate r;
     ServiceRequest.beforeImages := ServiceRequest.beforeImages r;
     ServiceRequest.afterImages := ServiceRequest.afterImages r;
     ServiceRequest.requiresPayment := ServiceRequest.requiresPayment r;
     ServiceRequest.paymentAmount := ServiceRequest.paymentAmount r;
     ServiceRequest.createdAt := ServiceRequest.createdAt r;
     ServiceRequest.updatedAt := toISOString now;
     ServiceRequest.requirePayment := ServiceRequest.requirePayment r |}.

(** ** Calls of the service

    The five operations of the file that write the table of service
    requests, as one type of calls; [run] hands a call to its operation. *)
Inductive Call : Type :=
  | UpdateStatus (now : Z) (id : string) (status : ServiceRequestStatus.t)
      (user : ActingUser) (data : option StatusData.t)
  | AssignAgent (now : Z) (id : string) (assignedToId : string) (user : ActingUser)
  | Schedule (now : Z) (id : string) (scheduledDate : string) (user : ActingUser)
  | Create (now : Z) (id : string) (data : CreateData.t) (user : ActingUser)
  | CreateInstallation (now : Z) (id : string) (data : InstallationData.t)
      (user : ActingUser).

Definition run (c : Call) : M (option ServiceRequest.t) :=
  match c with
  | UpdateStatus now id status user data =>
      updateServiceRequestStatus now id status user data
  | AssignAgent now id assignedToId user => assignServiceAgent now id assignedToId user
  | Schedule now id scheduledDate user => scheduleServiceRequest now id scheduledDate user
  | Create now id data user => createServiceRequest now id data user
  | CreateInstallation now id data user =>
      createInstallationServiceRequest now id data user
  end.

(** The rows of the store after a call that are completed and payable were
    completed or waiting for payment before the call. *)
Definition completesFromPaymentPending (before after : list ServiceRequest.t) : Prop :=
  forall r',
    In r' after ->
    ServiceRequest.status r' = ServiceRequestStatus.COMPLETED ->
    ServiceRequest.requiresPayment r' = true ->
    exists r,
      In r before
      /\ ServiceRequest.id r = ServiceRequest.id r'
      /\ ServiceRequest.requiresPayment r = true
      /\ (ServiceRequest.status r = ServiceRequestStatus.COMPLETED
          \/ ServiceRequest.status r = ServiceRequestStatus.PAYMENT_PENDING).

(** A sequence of calls, each run on the store that the one before left,
    whether it succeeded or threw. *)
Definition runAll (calls : list Call) (db : Db) : Db :=
  fold_left (fun d c => snd (run c d)) calls db.

Definition isStatusUpdate (c : Call) : bool :=
  match c with
  | UpdateStatus _ _ _ _ _ => true
  | _ => false
  end.

(** A row without assigned agent that is CREATED, ASSIGNED or CANCELLED. *)
Definition waitsForAnAgent (r : ServiceRequest.t) : Prop :=
  truthy (ServiceRequest.assignedToId r) = false
  /\ (ServiceRequest.status r = ServiceRequestStatus.CREATED
      \/ ServiceRequest.status r = ServiceRequestStatus.ASSIGNED
      \/ ServiceRequest.status r = ServiceRequestStatus.CANCELLED).

(** ** Who sees which row *)

(** What the role of the acting user lets them see: a customer their own
    requests, a service agent the requests assigned to them, a franchise
    owner the requests of the first franchise they own, any other role every
    request. *)
Definition mayView (user : ActingUser) (db : Db) (r : ServiceRequest.t) : Prop :=
  match role user with
  | UserRole.CUSTOMER => ServiceRequest.customerId r = userId user
  | UserRole.SERVICE_AGENT => ServiceRequest.assignedToId r = Some (userId user)
  | UserRole.FRANCHISE_OWNER =>
      exists f,
        find (fun f => bool_decide (Franchise.ownerId f = Some (userId user)))
             (franchises db) = Some f
        /\ ServiceRequest.franchiseId r = Some (Franchise.id f)
  | UserRole.ADMIN => True
  end.

(** A row meets the filters: each filter that is given, and is not the empty
    text, equals the column of its name. *)
Definition meets (filters : Filters.t) (r : ServiceRequest.t) : Prop :=
  (forall st, Filters.status filters = Some st -> ServiceRequest.status r = st)
  /\ (forall t, Filters.type filters = Some t -> t <> EmptyString ->
                ServiceRequest.type r = t)
  /\ (forall f, Filters.franchiseId filters = Some f -> f <> EmptyString ->
                ServiceRequest.franchiseId r = Some f)
  /\ (forall c, Filters.customerId filters = Some c -> c <> EmptyString ->
                ServiceRequest.customerId r = c).

(** ** A store and a clock for the worked examples *)

(** Stand-ins for the three built-ins: a bracketed list for
    [JSON.stringify], and a calendar of three instants for [toISOString] and
    [new Date(text)]. *)
Definition exampleStringify (l : list string) : string :=
  "[" +:+ join "," l +:+ "]".

Definition exampleISO (instant : Z) : string :=
  if instant =? 946684800000 then "2000-01-01T00:00:00.000Z"
  else if instant =? 1893456000000 then "2030-01-01T00:00:00.000Z"
  else "2026-11-01T00:00:00.000Z".

Definition exampleParse (text : string) : option Z :=
  if bool_decide (text = "2000-01-01T00:00:00.000Z") then Some 946684800000
  else if bool_decide (text = "2030-01-01T00:00:00.000Z") then Some 1893456000000
  else if bool_decide (text = "2026-11-01T00:00:00.000Z") then Some 1793491200000
  else None.

Definition exampleNow : Z := 1793491200000.

Definition exampleRequest (status : ServiceRequestStatus.t) (type : string)
  (requiresPayment : bool) (assignedToId installationRequestId : option string)
  : ServiceRequest.t :=
  {| ServiceRequest.id := "srq1";
     ServiceRequest.subscriptionId := None;
     ServiceRequest.customerId := "customer1";
     ServiceRequest.productId := "product1";
     ServiceRequest.installationRequestId := installationRequestId;
     ServiceRequest.type := type;
     ServiceRequest.description := "water purifier";
     ServiceRequest.images := None;
     ServiceRequest.status := status;
     ServiceRequest.assignedToId := assignedToId;
     ServiceRequest.franchiseId := Some "franchise1";
     ServiceRequest.scheduledDate := None;
     ServiceRequest.completedDate := None;
     ServiceRequest.beforeImages := None;
     ServiceRequest.afterImages := None;
     ServiceRequest.requiresPayment := requiresPayment;
     ServiceRequest.paymentAmount := None;
     ServiceRequest.createdAt := "2026-10-01T00:00:00.000Z";
     ServiceRequest.updatedAt := "2026-10-01T00:00:00.000Z";
     ServiceRequest.requirePayment := None |}.

Definition exampleInstallationRequest : InstallationRequest.t :=
  {| InstallationRequest.id := "ir1";
     InstallationRequest.customerId := "customer1";
     InstallationRequest.productId := "product1";
     InstallationRequest.franchiseId := "franchise1";
     InstallationRequest.status := Some InstallationRequestStatus.INSTALLATION_SCHEDULED;
     InstallationRequest.assignedTechnicianId := None |}.

Definition exampleUsers : list User.t :=
  [ {| User.id := "agent1"; User.role := UserRole.SERVICE_AGENT;
       User.name := Some "Asha"; User.phone := "9000000001"; User.city := Some "Pune" |};
    {| User.id := "customer1"; User.role := UserRole.CUSTOMER;
       User.name := Some "Ravi"; User.phone := "9000000002"; User.city := Some "Pune" |};
    {| User.id := "owner1"; User.role := UserRole.FRANCHISE_OWNER;
       User.name := None; User.phone := "9000000003"; User.city := Some "Pune" |} ].

(** A store holding the given service requests, one installation request,
    one franchise, one product and no payment. *)
Definition exampleStore (rows : list ServiceRequest.t) : Db :=
  {| serviceRequests := rows;
     installationRequests := [exampleInstallationRequest];
     users := exampleUsers;
     franchises := [ {| Franchise.id := "franchise1"; Franchise.ownerId := Some "owner1";
                        Franchise.city := "Pune" |} ];
     payments := [];
     products := [ {| Product.id := "product1" |} ];
     subscriptions := [];
     actionHistory := [] |}.

Definition adminUser : ActingUser := {| userId := "admin1"; role := UserRole.ADMIN |}.

Definition agentUser : ActingUser := {| userId := "agent1"; role := UserRole.SERVICE_AGENT |}.

Definition customerUser : ActingUser := {| userId := "customer1"; role := UserRole.CUSTOMER |}.

(** Evidence carrying nothing but the given images. *)
Definition withImages (l : list string) : option StatusData.t :=
  Some {| StatusData.agentId := None; StatusData.completedAt := None;
          StatusData.scheduledDate := None; StatusData.paymentAmount := None;
          StatusData.images := Some l |}.

(** A stand-in for [JSON.parse] that reads back two of the texts that
    [exampleStringify] writes. *)
Definition exampleParseJson (text : string) : option (list string) :=
  if bool_decide (text = "[a.jpg,b.jpg]") then Some ["a.jpg"; "b.jpg"]
  else if bool_decide (text = "[]") then Some []
  else None.

(** The example store with one subscription of the customer, served by a
    second franchise. *)
Definition subscribedStore (rows : list ServiceRequest.t) : Db :=
  {| serviceRequests := rows;
     installationRequests := installationRequests (exampleStore rows);
     users := users (exampleStore rows);
     franchises := franchises (exampleStore rows);
     payments := payments (exampleStore rows);
     products := products (exampleStore rows);
     subscriptions := [ {| Subscription.id := "sub1";
                           Subscription.customerId := "customer1";
                           Subscription.franchiseId := "franchise2" |} ];
     actionHistory := actionHistory (exampleStore rows) |}.

(** What a customer sends to [createServiceRequest] for the example
    product. *)
Definition exampleCreateData (subscriptionId installationRequestId : option string)
  (images : option (list string)) : CreateData.t :=
  {| CreateData.productId := "product1";
     CreateData.subscriptionId := subscriptionId;
     CreateData.installationRequestId := installationRequestId;
     CreateData.type := "repair";
     CreateData.description := "leaking tap";
     CreateData.scheduledDate := None;
     CreateData.images := images;
     CreateData.requiresPayment := None;
     CreateData.paymentAmount := None |}.

(** What is sent to [createInstallationServiceRequest] for the example
    installation request. *)
Definition exampleInstallationData (assignedToId : option string) : InstallationData.t :=
  {| InstallationData.installationRequestId := "ir1";
     InstallationData.assignedToId := assignedToId;
     InstallationData.scheduledDate := None;
     InstallationData.description := "Installation service request" |}.

Definition ownerUser : ActingUser :=
  {| userId := "owner1"; role := UserRole.FRANCHISE_OWNER |}.

(** Evidence for a request of payment: an amount and completion images. *)
Definition withAmount (amount : Z) (l : list string) : option StatusData.t :=
  Some {| StatusData.agentId := None; StatusData.completedAt := None;
          StatusData.scheduledDate := None; StatusData.paymentAmount := Some amount;
          StatusData.images := Some l |}.

(** ** Running the monad *)

Lemma getServiceRequestById_found id db sr :
  getServiceRequestById id db = (Ok (Some sr), db) ->
  find (fun r => bool_decide (ServiceRequest.id r = id)) (serviceRequests db) = Some sr.
Proof. unfold getServiceRequestById, query. intros H. congruence. Qed.

Lemma bind_ok {A B} (m : M A) (k : A -> M B) db a db' :
  m db = (Ok a, db') -> bind m k db = k a db'.
Proof. unfold bind. intros ->. reflexivity. Qed.

Lemma bind_err {A B} (m : M A) (k : A -> M B) db e db' :
  m db = (Err e, db') -> bind m k db = (Err e, db').
Proof. unfold bind. intros ->. reflexivity. Qed.

(** The table of the code is the table of the specification. *)
Lemma includes_validTransitions current target :
  includes (validTransitions current) target = tableEdge current target.
Proof. destruct current, target; reflexivity. Qed.

Lemma tableEdge_irreflexive s : tableEdge s s = false.
Proof. destruct s; reflexivity. Qed.

Lemma updateServiceRequestStatus_outside_table now id status user data db sr :
  getServiceRequestById id db = (Ok (Some sr), db) ->
  tableEdge (ServiceRequest.status sr) status = false ->
  updateServiceRequestStatus now id status user data db
  = (Err (badRequest (invalidTransitionMessage (ServiceRequest.status sr) status)), db).
Proof.
  intros Hget Hedge.
  unfold updateServiceRequestStatus.
  rewrite (bind_ok _ _ _ _ _ Hget).
  apply bind_err.
  rewrite includes_validTransitions, Hedge.
  reflexivity.
Qed.

(** C1.  For a service request found in the store and a target status such
    that the pair (current status, target status) is not an edge of the
    transition table, or such that the target is the current status itself,
    [updateServiceRequestStatus] throws the bad-request error whose message
    names the current status, the target and the allowed set, for every
    acting user and every supplied evidence, and the store is left as it
    was. *)
Theorem updateServiceRequestStatus_rejects_non_edge
  now id status user data db sr :
  getServiceRequestById id db = (Ok (Some sr), db) ->
  tableEdge (ServiceRequest.status sr) status = false
  \/ status = ServiceRequest.status sr ->
  updateServiceRequestStatus now id status user data db
  = (Err (badRequest
       ("Invalid status transition from "
        +:+ ServiceRequestStatus.name (ServiceRequest.status sr)
        +:+ " to " +:+ ServiceRequestStatus.name status
        +:+ ". Valid transitions are: "
        +:+ orElse (join ", " (map ServiceRequestStatus.name
                                 (validTransitions (ServiceRequest.status sr))))
                   "none")),
     db).
Proof.
  intros Hget [Hedge | ->].
  - exact (updateServiceRequestStatus_outside_table _ _ _ _ _ _ _ Hget Hedge).
  - apply (updateServiceRequestStatus_outside_table _ _ _ _ _ _ _ Hget).
    apply tableEdge_irreflexive.
Qed.

Ltac run_monad :=
  cbv beta iota delta
    [bind when throw ret query modify logActionHistory
     updateServiceRequestsWhereId updateInstallationRequestsWhereId
     insertServiceRequest getUserById getFranchiseById fst snd].

(** C8.  For a service request found in the store with [requiresPayment]
    set: in status IN_PROGRESS a request to move it to COMPLETED is thrown
    back as a bad request whatever the user and the evidence, the store
    being left as it was; and whenever [updateServiceRequestStatus] accepts
    the target COMPLETED for it, its status was PAYMENT_PENDING. *)
Theorem payment_request_never_completes_from_in_progress
  now id user data db sr :
  getServiceRequestById id db = (Ok (Some sr), db) ->
  ServiceRequest.requiresPayment sr = true ->
  (ServiceRequest.status sr = ServiceRequestStatus.IN_PROGRESS ->
   updateServiceRequestStatus now id ServiceRequestStatus.COMPLETED user data db
   = (Err (badRequest
        (if noImages (opt data StatusData.images)
         then "Completion images are required to mark as completed"
         else "Service requests requiring payment must go through PAYMENT_PENDING status first")),
      db))
  /\ (isOk (fst (updateServiceRequestStatus now id ServiceRequestStatus.COMPLETED
                   user data db)) = true ->
      ServiceRequest.status sr = ServiceRequestStatus.PAYMENT_PENDING).
Proof.
  intros Hget Hpay.
  unfold updateServiceRequestStatus.
  rewrite (bind_ok _ _ _ _ _ Hget).
  rewrite Hpay. split.
  - intros ->. simpl includes. run_monad.
    destruct (noImages (opt data StatusData.images)); reflexivity.
  - destruct (ServiceRequest.status sr); simpl includes; run_monad;
      try discriminate; try reflexivity.
    destruct (noImages (opt data StatusData.images)); simpl; discriminate.
Qed.

(** ** Lookups in the objects handed to [set] *)

Lemma lookup_insert_key (m : gmap string Value) i x k :
  <[i := x]> m !! k = if bool_decide (i = k) then Some x else m !! k.
Proof.
  rewrite lookup_insert. destruct (decide (i = k)) as [e|n].
  - rewrite (bool_decide_eq_true_2 _ e). reflexivity.
  - rewrite (bool_decide_eq_false_2 _ n). reflexivity.
Qed.

Lemma lookup_singleton_key i (x : Value) k :
  ({[i := x]} : gmap string Value) !! k = if bool_decide (i = k) then Some x else None.
Proof.
  rewrite lookup_singleton. destruct (decide (i = k)) as [e|n].
  - rewrite (bool_decide_eq_true_2 _ e). reflexivity.
  - rewrite (bool_decide_eq_false_2 _ n). reflexivity.
Qed.

Lemma lookup_assignIf cond key value (object : gmap string Value) k :
  assignIf cond key value object !! k
  = if cond && bool_decide (key = k) then Some value else object !! k.
Proof.
  unfold assignIf. destruct cond; [|reflexivity].
  rewrite lookup_insert_key. reflexivity.
Qed.

Lemma lookup_updateData now status data k :
  updateData now status data !! k
  = if negb (noImages (opt data StatusData.images))
       && bool_decide ((if bool_decide (status = ServiceRequestStatus.IN_PROGRESS)
                        then "beforeImages" else "afterImages") = k)
    then Some (VString (JSON_stringify (imagesValue (opt data StatusData.images))))
    else if bool_decide (status = ServiceRequestStatus.COMPLETED)
            && bool_decide ("completedAt" = k)
    then Some (VString (toISOString now))
    else if truthyNumber (opt data StatusData.paymentAmount)
            && bool_decide ("paymentAmount" = k)
    then Some (numberValue (opt data StatusData.paymentAmount))
    else if truthy (opt data StatusData.scheduledDate)
            && bool_decide ("scheduledDate" = k)
    then Some (stringValue (opt data StatusData.scheduledDate))
    else if truthy (opt data StatusData.agentId)
            && bool_decide ("assignedAgentId" = k)
    then Some (stringValue (opt data StatusData.agentId))
    else if bool_decide ("updatedAt" = k) then Some (VString (toISOString now))
    else if bool_decide ("status" = k) then Some (VStatus status)
    else None.
Proof.
  unfold updateData. cbv zeta.
  rewrite !lookup_assignIf, lookup_insert_key, lookup_singleton_key.
  reflexivity.
Qed.

(** Equality tests between two key literals are computed. *)
Ltac eval_keys :=
  repeat match goal with
  | |- context [bool_decide (@eq string ?a ?b)] =>
      let v := eval vm_compute in (bool_decide (a = b)) in
      change (bool_decide (a = b)) with v
  end.

(** Equality tests between two closed terms are computed. *)
Ltac eval_tests :=
  repeat match goal with
  | |- context [bool_decide (?a = ?b)] =>
      let v := eval vm_compute in (bool_decide (a = b)) in
      lazymatch v with true => idtac | false => idtac end;
      change (bool_decide (a = b)) with v
  end;
  cbn [andb orb negb].

Ltac unfold_columns :=
  unfold setText, setNullableText, setNullableNumber, setBool, setNullableBool, setStatus.

(** The update of an accepted transition writes [written]: the keys
    [assignedAgentId] and [completedAt] of [updateData] name no column. *)
Lemma setServiceRequest_updateData now status data r :
  setServiceRequest (updateData now status data) r = written now status data r.
Proof.
  unfold setServiceRequest, written.
  f_equal; unfold_columns; rewrite lookup_updateData;
    destruct (bool_decide (status = ServiceRequestStatus.IN_PROGRESS));
    eval_keys; rewrite ?andb_false_r, ?andb_true_r; cbn [negb]; try reflexivity.
  all: try (destruct (opt data StatusData.scheduledDate) as [d|];
            [destruct (truthy (Some d))|]; reflexivity).
  all: try (destruct (opt data StatusData.paymentAmount) as [p|];
            [destruct (truthyNumber (Some p))|]; reflexivity).
  all: try (destruct (negb (noImages (opt data StatusData.images))); reflexivity).
Qed.

(** ** Rows found again after an update by id *)

Lemma find_by_id_map (f : ServiceRequest.t -> ServiceRequest.t) i l :
  (forall r, ServiceRequest.id (f r) = ServiceRequest.id r) ->
  find (fun r => bool_decide (ServiceRequest.id r = i))
       (map (fun r => if bool_decide (ServiceRequest.id r = i) then f r else r) l)
  = option_map f (find (fun r => bool_decide (ServiceRequest.id r = i)) l).
Proof.
  intros Hid. induction l as [|r l IH]; [reflexivity|].
  simpl. destruct (bool_decide (ServiceRequest.id r = i)) eqn:E.
  - rewrite Hid, E. reflexivity.
  - rewrite E. exact IH.
Qed.

Lemma map_setServiceRequest_updateData now status data id l :
  map (fun r => if bool_decide (ServiceRequest.id r = id)
                then setServiceRequest (updateData now status data) r else r) l
  = map (fun r => if bool_decide (ServiceRequest.id r = id)
                  then written now status data r else r) l.
Proof.
  apply map_ext. intros r. rewrite setServiceRequest_updateData. reflexivity.
Qed.

(** The part of [updateServiceRequestStatus] that follows the checks. *)
Lemma updateServiceRequestStatus_commits now id status user data db sr :
  getServiceRequestById id db = (Ok (Some sr), db) ->
  (updateServiceRequestsWhereId (updateData now status data) id ;;
   logActionHistory
     {| subject := OnEntity "service_request" id;
        label := ActionName
          ("status_updated_to_" +:+ toLowerCase (ServiceRequestStatus.name status));
        fromStatus := OfServiceRequest (ServiceRequest.status sr);
        toStatus := OfServiceRequest status;
        performedBy := userId user |} ;;
   match ServiceRequest.subscriptionId sr with
   | Some subscriptionId =>
       when (truthy (Some subscriptionId))
         (logActionHistory
           {| subject := OnEntity "subscription" subscriptionId;
              label := ActionName
                ("service_request_" +:+ toLowerCase (ServiceRequestStatus.name status));
              fromStatus := NoStatus;
              toStatus := NoStatus;
              performedBy := userId user |})
   | None => ret tt
   end ;;
   getServiceRequestById id) db
  = (Ok (Some (written now status data sr)), committed now id status user data sr db).
Proof.
  intros Hget. apply getServiceRequestById_found in Hget.
  assert (Hfind :
    find (fun r => bool_decide (ServiceRequest.id r = id))
         (map (fun r => if bool_decide (ServiceRequest.id r = id)
                        then written now status data r else r)
              (serviceRequests db))
    = Some (written now status data sr)).
  { rewrite find_by_id_map by reflexivity. rewrite Hget. reflexivity. }
  unfold committed, getServiceRequestById. run_monad.
  cbn [serviceRequests actionHistory installationRequests users franchises payments
       products subscriptions withServiceRequests withActionHistory].
  rewrite map_setServiceRequest_updateData.
  destruct (ServiceRequest.subscriptionId sr) as [s|]; [destruct (truthy (Some s))|];
    cbn [serviceRequests actionHistory installationRequests users franchises payments
         products subscriptions withServiceRequests withActionHistory];
    rewrite Hfind, ?app_nil_r; reflexivity.
Qed.

(** [updateServiceRequestStatus] on a request found in the store: the first
    failed check is thrown as a bad request and the store is left as it was;
    when no check fails the row is rewritten, the history is extended and the
    row read again is returned. *)
Lemma updateServiceRequestStatus_decides now id status user data db sr :
  getServiceRequestById id db = (Ok (Some sr), db) ->
  updateServiceRequestStatus now id status user data db
  = match violation sr status data with
    | Some message => (Err (badRequest message), db)
    | None => (Ok (Some (written now status data sr)),
               committed now id status user data sr db)
    end.
Proof.
  intros Hget.
  unfold updateServiceRequestStatus, violation.
  rewrite (bind_ok _ _ _ _ _ Hget).
  destruct (negb (includes (validTransitions (ServiceRequest.status sr)) status)).
  { reflexivity. }
  rewrite (bind_ok _ _ db tt db) by reflexivity.
  pose proof (updateServiceRequestStatus_commits now id status user data db sr Hget)
    as Htail.
  destruct status.
  - rewrite (bind_ok _ _ db tt db) by reflexivity. exact Htail.
  - destruct (negb (truthy (opt data StatusData.agentId))); [reflexivity|].
    rewrite (bind_ok _ _ db tt db) by reflexivity. exact Htail.
  - destruct (negb (truthy (ServiceRequest.assignedToId sr))); [reflexivity|].
    destruct (negb (truthy (opt data StatusData.scheduledDate))); [reflexivity|].
    rewrite (bind_ok _ _ db tt db) by reflexivity. exact Htail.
  - destruct (bool_decide (ServiceRequest.type sr = "installation")
              && noImages (opt data StatusData.images)); [reflexivity|].
    rewrite (bind_ok _ _ db tt db) by reflexivity. exact Htail.
  - destruct (negb (ServiceRequest.requiresPayment sr)); [reflexivity|].
    destruct (match opt data StatusData.paymentAmount with
              | Some n => negb (truthyNumber (Some n)) || (n <=? 0)
              | None => true
              end); [reflexivity|].
    destruct (noImages (opt data StatusData.images)); [reflexivity|].
    rewrite (bind_ok _ _ db tt db) by reflexivity. exact Htail.
  - destruct (noImages (opt data StatusData.images)); [reflexivity|].
    destruct (ServiceRequest.requiresPayment sr
              && bool_decide (ServiceRequest.status sr = ServiceRequestStatus.IN_PROGRESS));
      [reflexivity|].
    rewrite (bind_ok _ _ db tt db) by reflexivity. exact Htail.
  - rewrite (bind_ok _ _ db tt db) by reflexivity. exact Htail.
Qed.

(** C2 (as amended).  On the SCHEDULED to IN_PROGRESS edge,
    [updateServiceRequestStatus] throws a bad request for a request of type
    INSTALLATION when no image is supplied and leaves the store as it was;
    when at least one image is supplied it accepts the transition for a
    request of any type and stores the supplied images as [beforeImages]. *)
Theorem in_progress_requires_images_for_installation
  now id user data db sr :
  getServiceRequestById id db = (Ok (Some sr), db) ->
  ServiceRequest.status sr = ServiceRequestStatus.SCHEDULED ->
  (ServiceRequest.type sr = ServiceRequestType.INSTALLATION ->
   noImages (opt data StatusData.images) = true ->
   updateServiceRequestStatus now id ServiceRequestStatus.IN_PROGRESS user data db
   = (Err (badRequest
        "Before images are required to start installation service requests"), db))
  /\ (noImages (opt data StatusData.images) = false ->
      exists row db',
        updateServiceRequestStatus now id ServiceRequestStatus.IN_PROGRESS user data db
        = (Ok (Some row), db')
        /\ getServiceRequestById id db' = (Ok (Some row), db')
        /\ ServiceRequest.status row = ServiceRequestStatus.IN_PROGRESS
        /\ ServiceRequest.beforeImages row
           = Some (JSON_stringify (imagesValue (opt data StatusData.images)))).
Proof.
  intros Hget Hst.
  rewrite (updateServiceRequestStatus_decides _ _ _ _ _ _ _ Hget).
  unfold violation. rewrite Hst. cbn [validTransitions includes existsb negb].
  change (bool_decide (ServiceRequestStatus.IN_PROGRESS = ServiceRequestStatus.IN_PROGRESS))
    with true.
  cbn [orb negb]. split.
  - intros Hty Himg. rewrite Hty, Himg. reflexivity.
  - intros Himg. rewrite Himg, andb_false_r.
    exists (written now ServiceRequestStatus.IN_PROGRESS data sr),
           (committed now id ServiceRequestStatus.IN_PROGRESS user data sr db).
    split; [reflexivity|]. split; [|split].
    + unfold getServiceRequestById, query, committed. cbn [serviceRequests].
      rewrite find_by_id_map by reflexivity.
      rewrite (getServiceRequestById_found _ _ _ Hget). reflexivity.
    + reflexivity.
    + cbn [written ServiceRequest.beforeImages]. rewrite Himg. reflexivity.
Qed.



(** ** What the status update never touches *)

Lemma getServiceRequestById_runs id db :
  getServiceRequestById id db
  = (Ok (find (fun r => bool_decide (ServiceRequest.id r = id)) (serviceRequests db)), db).
Proof. reflexivity. Qed.

(** No call of [updateServiceRequestStatus], accepted or not, writes the
    table of installation requests: the synchronizer is never reached. *)
Lemma updateServiceRequestStatus_leaves_installationRequests
  now id status user data db :
  installationRequests (snd (updateServiceRequestStatus now id status user data db))
  = installationRequests db.
Proof.
  pose proof (getServiceRequestById_runs id db) as Hget.
  destruct (find (fun r => bool_decide (ServiceRequest.id r = id)) (serviceRequests db))
    as [sr|] eqn:Hfind.
  - rewrite (updateServiceRequestStatus_decides _ _ _ _ _ _ _ Hget).
    destruct (violation sr status data); reflexivity.
  - unfold updateServiceRequestStatus. rewrite (bind_ok _ _ _ _ _ Hget). reflexivity.
Qed.

(** An accepted call rewrites each row carrying the id into [written],
    which keeps [assignedToId] and [completedDate] as they were. *)
Lemma updateServiceRequestStatus_keeps_assignee_and_completion
  now id status user data db sr row db' :
  getServiceRequestById id db = (Ok (Some sr), db) ->
  updateServiceRequestStatus now id status user data db = (Ok (Some row), db') ->
  row = written now status data sr
  /\ ServiceRequest.status row = status
  /\ ServiceRequest.assignedToId row = ServiceRequest.assignedToId sr
  /\ ServiceRequest.completedDate row = ServiceRequest.completedDate sr.
Proof.
  intros Hget. rewrite (updateServiceRequestStatus_decides _ _ _ _ _ _ _ Hget).
  destruct (violation sr status data); [discriminate|].
  intros H. injection H as <- _. repeat split.
Qed.

(** ** The validators and the synchronizer that are never called *)

Lemma validateInstallationSpecificTransitions_blocks_completion sr images db :
  validateInstallationSpecificTransitions sr
    ServiceRequestStatus.IN_PROGRESS ServiceRequestStatus.COMPLETED images db
  = (Err (badRequest
       "Installation service requests must go through PAYMENT_PENDING status before completion"),
     db).
Proof. reflexivity. Qed.

Lemma validateInstallationSpecificTransitions_checks_payment sr images db :
  validateInstallationSpecificTransitions sr
    ServiceRequestStatus.PAYMENT_PENDING ServiceRequestStatus.COMPLETED images db
  = match find (fun p =>
                  match ServiceRequest.installationRequestId sr with
                  | Some i =>
                      bool_decide (Payment.installationRequestId p = Some i)
                      && bool_decide (Payment.status p = PaymentStatus.COMPLETED)
                  | None => false
                  end) (payments db) with
    | Some _ => (Ok tt, db)
    | None => (Err (badRequest "please complete payment first"), db)
    end.
Proof.
  unfold validateInstallationSpecificTransitions. eval_tests. run_monad.
  destruct (find _ (payments db)); reflexivity.
Qed.

Lemma validateServiceRequestTransition_wants_before_images sr images db :
  ServiceRequest.status sr = ServiceRequestStatus.SCHEDULED ->
  ServiceRequest.type sr <> ServiceRequestType.INSTALLATION ->
  noImages (opt images Evidence.beforeImages) = true ->
  validateServiceRequestTransition sr ServiceRequestStatus.IN_PROGRESS images db
  = (Err match images with
         | None => TypeError
         | Some _ => badRequest "Before images are required when starting service work"
         end, db).
Proof.
  intros Hst Hty Himg.
  unfold validateServiceRequestTransition. rewrite Hst.
  rewrite (bool_decide_eq_false_2 _ Hty).
  destruct images as [e|]; [|reflexivity].
  eval_tests. run_monad.
  cbn [opt] in Himg. cbn [opt]. rewrite Himg. reflexivity.
Qed.

Lemma validateServiceRequestTransition_installation_starts_freely sr images db :
  ServiceRequest.status sr = ServiceRequestStatus.SCHEDULED ->
  ServiceRequest.type sr = ServiceRequestType.INSTALLATION ->
  validateServiceRequestTransition sr ServiceRequestStatus.IN_PROGRESS images db
  = (Ok tt, db).
Proof.
  intros Hst Hty.
  unfold validateServiceRequestTransition, validateInstallationSpecificTransitions.
  rewrite Hst, Hty. reflexivity.
Qed.

Lemma syncInstallationRequestStatus_writes installationRequestId status user
  serviceRequestId db :
  installationRequests
    (snd (syncInstallationRequestStatus installationRequestId status user
            serviceRequestId db))
  = map (fun r =>
           if bool_decide (InstallationRequest.id r = installationRequestId)
           then setInstallationRequest
                  match status with
                  | ServiceRequestStatus.IN_PROGRESS =>
                      Some InstallationRequestStatus.INSTALLATION_IN_PROGRESS
                  | ServiceRequestStatus.PAYMENT_PENDING =>
                      Some InstallationRequestStatus.PAYMENT_PENDING
                  | ServiceRequestStatus.COMPLETED =>
                      Some InstallationRequestStatus.INSTALLATION_COMPLETED
                  | ServiceRequestStatus.CANCELLED =>
                      Some InstallationRequestStatus.CANCELLED
                  | _ => None
                  end None r
           else r)
        (installationRequests db).
Proof. destruct status; reflexivity. Qed.

(** ** Assignment and scheduling bypass the transition table *)

Lemma setServiceRequest_assign now agent r :
  setServiceRequest
    (<["updatedAt" := VString (toISOString now)]>
       (<["status" := VStatus ServiceRequestStatus.ASSIGNED]>
          {["assignedToId" := VString agent]})) r
  = assignedTo now agent r.
Proof.
  unfold setServiceRequest, assignedTo.
  f_equal; unfold_columns; rewrite !lookup_insert_key, lookup_singleton_key;
    eval_keys; reflexivity.
Qed.

Lemma setServiceRequest_schedule now instant r :
  setServiceRequest
    (<["updatedAt" := VString (toISOString now)]>
       (<["status" := VStatus ServiceRequestStatus.SCHEDULED]>
          {["scheduledDate" := VString (toISOString instant)]})) r
  = scheduledAt now instant r.
Proof.
  unfold setServiceRequest, scheduledAt.
  f_equal; unfold_columns; rewrite !lookup_insert_key, lookup_singleton_key;
    eval_keys; reflexivity.
Qed.

(** An administrator who names a service agent assigns it to a request in
    any status: the status found is logged, never checked. *)
Lemma assignServiceAgent_ignores_status now id agentId user db sr agent :
  getServiceRequestById id db = (Ok (Some sr), db) ->
  role user = UserRole.ADMIN ->
  getUserById agentId db = (Ok (Some agent), db) ->
  User.role agent = UserRole.SERVICE_AGENT ->
  exists db',
    assignServiceAgent now id agentId user db
    = (Ok (Some (assignedTo now agentId sr)), db')
    /\ serviceRequests db'
       = map (fun r => if bool_decide (ServiceRequest.id r = id)
                       then assignedTo now agentId r else r)
             (serviceRequests db).
Proof.
  intros Hget Hrole Hagent Hsa.
  unfold assignServiceAgent.
  rewrite (bind_ok _ _ _ _ _ Hget). rewrite Hrole.
  eval_tests.
  rewrite (bind_ok _ _ db tt db) by reflexivity.
  rewrite (bind_ok _ _ db tt db) by reflexivity.
  rewrite (bind_ok _ _ _ _ _ Hagent). rewrite Hsa.
  eval_tests.
  rewrite (bind_ok _ _ db tt db) by reflexivity.
  apply getServiceRequestById_found in Hget.
  unfold getServiceRequestById. run_monad.
  cbn [serviceRequests actionHistory installationRequests users franchises payments
       products subscriptions withServiceRequests withActionHistory].
  rewrite (map_ext _ (fun r => if bool_decide (ServiceRequest.id r = id)
                               then assignedTo now agentId r else r))
    by (intros r; rewrite setServiceRequest_assign; reflexivity).
  rewrite find_by_id_map by reflexivity. rewrite Hget.
  eexists. split; reflexivity.
Qed.

(** An administrator schedules a request in any status, assigned or not,
    at any instant that lies after the evaluation time. *)
Lemma scheduleServiceRequest_ignores_status now id scheduledDate user db sr instant :
  getServiceRequestById id db = (Ok (Some sr), db) ->
  role user = UserRole.ADMIN ->
  parseDate scheduledDate = Some instant ->
  now < instant ->
  exists db',
    scheduleServiceRequest now id scheduledDate user db
    = (Ok (Some (scheduledAt now instant sr)), db')
    /\ serviceRequests db'
       = map (fun r => if bool_decide (ServiceRequest.id r = id)
                       then scheduledAt now instant r else r)
             (serviceRequests db).
Proof.
  intros Hget Hrole Hparse Hlt.
  unfold scheduleServiceRequest.
  rewrite (bind_ok _ _ _ _ _ Hget). rewrite Hrole, Hparse.
  eval_tests.
  rewrite (bind_ok _ _ db true db) by reflexivity.
  replace (instant <=? now) with false by (symmetry; apply Z.leb_gt; exact Hlt).
  cbn [negb].
  rewrite (bind_ok _ _ db tt db) by reflexivity.
  rewrite (bind_ok _ _ db tt db) by reflexivity.
  apply getServiceRequestById_found in Hget.
  unfold getServiceRequestById. run_monad.
  cbn [serviceRequests actionHistory installationRequests users franchises payments
       products subscriptions withServiceRequests withActionHistory].
  rewrite (map_ext _ (fun r => if bool_decide (ServiceRequest.id r = id)
                               then scheduledAt now instant r else r))
    by (intros r; rewrite setServiceRequest_schedule; reflexivity).
  rewrite find_by_id_map by reflexivity. rewrite Hget.
  eexists. split; reflexivity.
Qed.

(** For a user who may schedule, an instant that is not after the
    evaluation time is thrown back and nothing is written. *)
Lemma scheduleServiceRequest_rejects_past now id scheduledDate user db sr instant :
  getServiceRequestById id db = (Ok (Some sr), db) ->
  role user = UserRole.ADMIN ->
  parseDate scheduledDate = Some instant ->
  instant <= now ->
  scheduleServiceRequest now id scheduledDate user db
  = (Err (badRequest "Scheduled date must be in the future"), db).
Proof.
  intros Hget Hrole Hparse Hle.
  unfold scheduleServiceRequest.
  rewrite (bind_ok _ _ _ _ _ Hget). rewrite Hrole, Hparse.
  eval_tests.
  rewrite (bind_ok _ _ db true db) by reflexivity.
  replace (instant <=? now) with true by (symmetry; apply Z.leb_le; exact Hle).
  reflexivity.
Qed.

(** [updateServiceRequestStatus] accepts the target SCHEDULED exactly when
    the table has the edge, the request has an assigned agent and a
    scheduled date is supplied; the date is compared with nothing. *)
Lemma updateServiceRequestStatus_schedules now id user data db sr :
  getServiceRequestById id db = (Ok (Some sr), db) ->
  isOk (fst (updateServiceRequestStatus now id ServiceRequestStatus.SCHEDULED
               user data db))
  = tableEdge (ServiceRequest.status sr) ServiceRequestStatus.SCHEDULED
    && truthy (ServiceRequest.assignedToId sr)
    && truthy (opt data StatusData.scheduledDate).
Proof.
  intros Hget. rewrite (updateServiceRequestStatus_decides _ _ _ _ _ _ _ Hget).
  unfold violation. rewrite includes_validTransitions.
  destruct (tableEdge (ServiceRequest.status sr) ServiceRequestStatus.SCHEDULED);
    [|reflexivity].
  destruct (truthy (ServiceRequest.assignedToId sr)); [|reflexivity].
  destruct (truthy (opt data StatusData.scheduledDate)); reflexivity.
Qed.

(** Through [updateServiceRequestStatus] a completed request goes nowhere:
    every target is outside the table. *)
Lemma updateServiceRequestStatus_respects_completed now id status user data db sr :
  getServiceRequestById id db = (Ok (Some sr), db) ->
  ServiceRequest.status sr = ServiceRequestStatus.COMPLETED ->
  updateServiceRequestStatus now id status user data db
  = (Err (badRequest (invalidTransitionMessage ServiceRequestStatus.COMPLETED status)),
     db).
Proof.
  intros Hget Hst. rewrite <- Hst.
  apply (updateServiceRequestStatus_outside_table _ _ _ _ _ _ _ Hget).
  rewrite Hst. reflexivity.
Qed.

(** ** The checks of the inserting branch of the installation upsert *)

Lemma createInstallationServiceRequest_insert_checks_owner
  now id data user db installationRequest :
  find (fun r => bool_decide
                   (InstallationRequest.id r = InstallationData.installationRequestId data))
       (installationRequests db) = Some installationRequest ->
  find (fun r =>
          bool_decide (ServiceRequest.installationRequestId r
                       = Some (InstallationData.installationRequestId data))
          && bool_decide (ServiceRequest.type r = ServiceRequestType.INSTALLATION))
       (serviceRequests db) = None ->
  role user = UserRole.FRANCHISE_OWNER ->
  find (fun f => bool_decide
                   (Some (Franchise.id f)
                    = Some (InstallationRequest.franchiseId installationRequest)))
       (franchises db) = None ->
  createInstallationServiceRequest now id data user db
  = (Err (forbidden "Installation request is not in your franchise area"), db).
Proof.
  intros Hir Hsr Hrole Hfr.
  unfold createInstallationServiceRequest. run_monad.
  rewrite Hir, Hsr, Hrole. eval_tests. rewrite Hfr. reflexivity.
Qed.

Lemma createInstallationServiceRequest_insert_checks_agent
  now id data user db installationRequest agentId :
  find (fun r => bool_decide
                   (InstallationRequest.id r = InstallationData.installationRequestId data))
       (installationRequests db) = Some installationRequest ->
  find (fun r =>
          bool_decide (ServiceRequest.installationRequestId r
                       = Some (InstallationData.installationRequestId data))
          && bool_decide (ServiceRequest.type r = ServiceRequestType.INSTALLATION))
       (serviceRequests db) = None ->
  role user = UserRole.ADMIN ->
  InstallationData.assignedToId data = Some agentId ->
  truthy (Some agentId) = true ->
  find (fun u => bool_decide (User.id u = agentId)) (users db) = None ->
  createInstallationServiceRequest now id data user db
  = (Err (badRequest "Invalid service agent"), db).
Proof.
  intros Hir Hsr Hrole Hdata Htruthy Hagent.
  unfold createInstallationServiceRequest. run_monad.
  rewrite Hir, Hsr, Hrole, Hdata. eval_tests. rewrite Htruthy, Hagent. reflexivity.
Qed.

(** ** A payable request is completed from PAYMENT_PENDING only *)

Lemma violation_completed_payable sr data :
  ServiceRequest.requiresPayment sr = true ->
  violation sr ServiceRequestStatus.COMPLETED data = None ->
  ServiceRequest.status sr = ServiceRequestStatus.PAYMENT_PENDING.
Proof.
  intros Hpay. unfold violation. rewrite Hpay.
  destruct (ServiceRequest.status sr); cbn [validTransitions includes existsb negb];
    eval_tests; try discriminate; try reflexivity.
  destruct (noImages (opt data StatusData.images)); discriminate.
Qed.

Lemma find_by_id_unique i (l : list ServiceRequest.t) r sr :
  List.NoDup (map ServiceRequest.id l) ->
  In r l -> ServiceRequest.id r = i ->
  find (fun x => bool_decide (ServiceRequest.id x = i)) l = Some sr ->
  r = sr.
Proof.
  induction l as [|x l IH]; intros Hnd Hin Hid Hfind; [destruct Hin|].
  cbn [map] in Hnd. apply List.NoDup_cons_iff in Hnd. destruct Hnd as [Hx Hnd].
  cbn [find] in Hfind. destruct (bool_decide (ServiceRequest.id x = i)) eqn:E.
  - injection Hfind as <-. apply bool_decide_eq_true_1 in E.
    destruct Hin as [->|Hin]; [reflexivity|].
    exfalso. apply Hx. rewrite E, <- Hid. apply in_map. exact Hin.
  - destruct Hin as [->|Hin].
    + apply bool_decide_eq_false_1 in E. contradiction.
    + exact (IH Hnd Hin Hid Hfind).
Qed.

Lemma completes_same l : completesFromPaymentPending l l.
Proof. intros r Hin Hst Hpay. exists r. auto. Qed.

Lemma completes_rewritten (f : ServiceRequest.t -> ServiceRequest.t) i l :
  (forall r, ServiceRequest.status (f r) <> ServiceRequestStatus.COMPLETED) ->
  completesFromPaymentPending l
    (map (fun r => if bool_decide (ServiceRequest.id r = i) then f r else r) l).
Proof.
  intros Hf r' Hin Hst Hpay.
  apply in_map_iff in Hin. destruct Hin as (r & Hr & Hin).
  destruct (bool_decide (ServiceRequest.id r = i)); subst r'.
  - exfalso. exact (Hf r Hst).
  - exists r. auto.
Qed.

Lemma completes_inserted l row :
  ServiceRequest.status row <> ServiceRequestStatus.COMPLETED ->
  completesFromPaymentPending l (l ++ [row]).
Proof.
  intros Hrow r' Hin Hst Hpay.
  apply in_app_iff in Hin. destruct Hin as [Hin|[<-|[]]].
  - exists r'. auto.
  - contradiction.
Qed.

Ltac split_tests :=
  repeat match goal with
  | |- context [match ?o with Some _ => _ | None => _ end] => destruct o eqn:?
  | |- context [if ?c then _ else _] => destruct c eqn:?
  end.

Ltac project_rows :=
  cbn [snd serviceRequests actionHistory installationRequests users franchises payments
       products subscriptions withServiceRequests withActionHistory
       withInstallationRequests].

Lemma completes_updateServiceRequestStatus now id status user data db :
  List.NoDup (map ServiceRequest.id (serviceRequests db)) ->
  completesFromPaymentPending (serviceRequests db)
    (serviceRequests (snd (updateServiceRequestStatus now id status user data db))).
Proof.
  intros Hnd.
  pose proof (getServiceRequestById_runs id db) as Hget.
  destruct (find (fun r => bool_decide (ServiceRequest.id r = id)) (serviceRequests db))
    as [sr|] eqn:Hfind.
  - rewrite (updateServiceRequestStatus_decides _ _ _ _ _ _ _ Hget).
    destruct (violation sr status data) eqn:Hv; [apply completes_same|].
    cbn [snd committed serviceRequests].
    intros r' Hin Hst Hpay.
    apply in_map_iff in Hin. destruct Hin as (r & Hr & Hin).
    destruct (bool_decide (ServiceRequest.id r = id)) eqn:E; subst r'.
    + apply bool_decide_eq_true_1 in E.
      pose proof (find_by_id_unique _ _ _ _ Hnd Hin E Hfind) as ->.
      cbn [written ServiceRequest.status] in Hst. subst status.
      cbn [written ServiceRequest.requiresPayment] in Hpay.
      exists sr. split; [exact Hin|]. split; [reflexivity|]. split; [exact Hpay|].
      right. exact (violation_completed_payable _ _ Hpay Hv).
    + exists r. auto.
  - unfold updateServiceRequestStatus. rewrite (bind_ok _ _ _ _ _ Hget).
    apply completes_same.
Qed.

Lemma completes_assignServiceAgent now id agentId user db :
  completesFromPaymentPending (serviceRequests db)
    (serviceRequests (snd (assignServiceAgent now id agentId user db))).
Proof.
  unfold assignServiceAgent, getServiceRequestById. run_monad. split_tests;
    project_rows; try apply completes_same.
  all: rewrite (map_ext _ (fun r => if bool_decide (ServiceRequest.id r = id)
                                    then assignedTo now agentId r else r))
    by (intros r; rewrite setServiceRequest_assign; reflexivity).
  all: apply completes_rewritten; discriminate.
Qed.

Lemma completes_scheduleServiceRequest now id scheduledDate user db :
  completesFromPaymentPending (serviceRequests db)
    (serviceRequests (snd (scheduleServiceRequest now id scheduledDate user db))).
Proof.
  unfold scheduleServiceRequest, getServiceRequestById. run_monad.
  destruct (parseDate scheduledDate) as [instant|]; split_tests;
    project_rows; try apply completes_same.
  all: rewrite (map_ext _ (fun r => if bool_decide (ServiceRequest.id r = id)
                                    then scheduledAt now instant r else r))
    by (intros r; rewrite setServiceRequest_schedule; reflexivity).
  all: apply completes_rewritten; discriminate.
Qed.

Lemma completes_createServiceRequest now id data user db :
  completesFromPaymentPending (serviceRequests db)
    (serviceRequests (snd (createServiceRequest now id data user db))).
Proof.
  unfold createServiceRequest, getServiceRequestById. run_monad.
  split_tests; project_rows; try apply completes_same.
  all: apply completes_inserted; discriminate.
Qed.

Lemma completes_createInstallationServiceRequest now id data user db :
  completesFromPaymentPending (serviceRequests db)
    (serviceRequests (snd (createInstallationServiceRequest now id data user db))).
Proof.
  unfold createInstallationServiceRequest, getServiceRequestById. run_monad.
  split_tests; project_rows; try apply completes_same.
  all: try (apply completes_inserted; discriminate).
  all: apply completes_rewritten; intros r;
    cbn [setServiceRequest ServiceRequest.status]; unfold setStatus;
    rewrite lookup_insert_key, lookup_singleton_key; eval_keys; discriminate.
Qed.

(** Whatever the call, a request that requires payment and is COMPLETED
    after the call was COMPLETED or PAYMENT_PENDING before it, the ids of the
    table being distinct. *)
Lemma payable_request_completes_only_from_payment_pending (c : Call) db :
  List.NoDup (map ServiceRequest.id (serviceRequests db)) ->
  completesFromPaymentPending (serviceRequests db) (serviceRequests (snd (run c db))).
Proof.
  intros Hnd. destruct c; cbn [run].
  - apply completes_updateServiceRequestStatus. exact Hnd.
  - apply completes_assignServiceAgent.
  - apply completes_scheduleServiceRequest.
  - apply completes_createServiceRequest.
  - apply completes_createInstallationServiceRequest.
Qed.

(** ** Every call: failures, rows, history *)




Lemma identity_setServiceRequest (u : gmap string Value) r :
  u !! "id" = None -> u !! "subscriptionId" = None -> u !! "customerId" = None ->
  u !! "productId" = None -> u !! "installationRequestId" = None ->
  u !! "type" = None -> u !! "description" = None -> u !! "franchiseId" = None ->
  u !! "requiresPayment" = None -> u !! "createdAt" = None ->
  identity (setServiceRequest u r) = identity r.
Proof.
  intros H1 H2 H3 H4 H5 H6 H7 H8 H9 H10.
  unfold identity, setServiceRequest. cbn.
  unfold_columns. rewrite H1, H2, H3, H4, H5, H6, H7, H8, H9, H10. reflexivity.
Qed.

Lemma identity_rewritten (f : ServiceRequest.t -> ServiceRequest.t) i l :
  (forall r, identity (f r) = identity r) ->
  map identity (map (fun r => if bool_decide (ServiceRequest.id r = i) then f r else r) l)
  = map identity l.
Proof.
  intros Hf. rewrite map_map. apply map_ext. intros r.
  destruct (bool_decide (ServiceRequest.id r = i)); [apply Hf | reflexivity].
Qed.

Ltac literal_lookup :=
  rewrite ?lookup_insert_key, ?lookup_singleton_key; eval_keys; reflexivity.

Ltac settle_rows :=
  first
    [ exists []; split;
      [ rewrite app_nil_r; reflexivity | cbn [length]; lia ]
    | exists []; split;
      [ rewrite app_nil_r; apply identity_rewritten; intros ?;
        apply identity_setServiceRequest; literal_lookup
      | cbn [length]; lia ]
    | eexists [_]; split;
      [ rewrite map_app; reflexivity | cbn [length]; lia ] ].

Lemma identity_updateServiceRequestStatus now id status user data db :
  exists extra,
    map identity (serviceRequests (snd (updateServiceRequestStatus now id status user
                                          data db)))
    = (map identity (serviceRequests db) ++ extra)%list
    /\ (length extra <= 1)%nat.
Proof.
  pose proof (getServiceRequestById_runs id db) as Hget.
  destruct (find (fun r => bool_decide (ServiceRequest.id r = id)) (serviceRequests db))
    as [sr|] eqn:Hfind.
  - rewrite (updateServiceRequestStatus_decides _ _ _ _ _ _ _ Hget).
    destruct (violation sr status data); cbn [snd committed serviceRequests].
    + settle_rows.
    + exists []. split; [|cbn [length]; lia].
      rewrite app_nil_r. apply identity_rewritten. reflexivity.
  - unfold updateServiceRequestStatus. rewrite (bind_ok _ _ _ _ _ Hget).
    cbn [snd throw]. settle_rows.
Qed.

(** X2.  No call deletes a row or rewrites what identifies it: after any
    call the table lists the rows it listed before, in the same order and
    with the same id, links, customer, product, type, description,
    franchise, payment flag and creation time, followed by at most one new
    row. *)
Theorem calls_keep_rows_and_their_identity (c : Call) db :
  exists extra,
    map identity (serviceRequests (snd (run c db)))
    = (map identity (serviceRequests db) ++ extra)%list
    /\ (length extra <= 1)%nat.
Proof.
  destruct c; cbn [run].
  - apply identity_updateServiceRequestStatus.
  - unfold assignServiceAgent, getServiceRequestById. run_monad.
    split_tests; project_rows; settle_rows.
  - unfold scheduleServiceRequest, getServiceRequestById. run_monad.
    split_tests; project_rows; settle_rows.
  - unfold createServiceRequest, getServiceRequestById. run_monad.
    split_tests; project_rows; settle_rows.
  - unfold createInstallationServiceRequest, getServiceRequestById. run_monad.
    split_tests; project_rows; settle_rows.
Qed.




(** ** The status update, beyond the transition table *)

(** X4.  [updateServiceRequestStatus] never looks at who calls: two acting
    users get the same answer, and the same rows are written; only the
    [performedBy] of the history entries tells them apart. *)
Theorem updateServiceRequestStatus_ignores_the_user now id status user1 user2 data db :
  fst (updateServiceRequestStatus now id status user1 data db)
  = fst (updateServiceRequestStatus now id status user2 data db)
  /\ serviceRequests (snd (updateServiceRequestStatus now id status user1 data db))
     = serviceRequests (snd (updateServiceRequestStatus now id status user2 data db))
  /\ map (fun e => (subject e, label e, fromStatus e, toStatus e))
         (actionHistory (snd (updateServiceRequestStatus now id status user1 data db)))
     = map (fun e => (subject e, label e, fromStatus e, toStatus e))
           (actionHistory (snd (updateServiceRequestStatus now id status user2 data db))).
Proof.
  pose proof (getServiceRequestById_runs id db) as Hget.
  destruct (find (fun r => bool_decide (ServiceRequest.id r = id)) (serviceRequests db))
    as [sr|] eqn:Hfind.
  - rewrite !(updateServiceRequestStatus_decides _ _ _ _ _ _ _ Hget).
    destruct (violation sr status data); cbn [fst snd committed serviceRequests
                                               actionHistory].
    + repeat split.
    + split; [reflexivity|]. split; [reflexivity|].
      rewrite !map_app. f_equal.
      destruct (ServiceRequest.subscriptionId sr) as [s|];
        [destruct (truthy (Some s))|]; reflexivity.
  - unfold updateServiceRequestStatus. rewrite !(bind_ok _ _ _ _ _ Hget).
    repeat split.
Qed.

(** X5.  [updateServiceRequestStatus] writes one table only, and in it only
    the rows that carry the id: every other row and the tables of
    installation requests, users, franchises, payments, products and
    subscriptions are after the call what they were before. *)
Theorem updateServiceRequestStatus_touches_only_the_request
  now id status user data db :
  let db' := snd (updateServiceRequestStatus now id status user data db) in
  (exists change,
     serviceRequests db'
     = map (fun r => if bool_decide (ServiceRequest.id r = id) then change r else r)
           (serviceRequests db))
  /\ installationRequests db' = installationRequests db
  /\ users db' = users db
  /\ franchises db' = franchises db
  /\ payments db' = payments db
  /\ products db' = products db
  /\ subscriptions db' = subscriptions db.
Proof.
  cbv zeta.
  assert (Hsame : forall l : list ServiceRequest.t,
            l = map (fun r => if bool_decide (ServiceRequest.id r = id) then r else r) l).
  { intros l. rewrite <- (map_id l) at 1. apply map_ext. intros r.
    destruct (bool_decide (ServiceRequest.id r = id)); reflexivity. }
  pose proof (getServiceRequestById_runs id db) as Hget.
  destruct (find (fun r => bool_decide (ServiceRequest.id r = id)) (serviceRequests db))
    as [sr|] eqn:Hfind.
  - rewrite (updateServiceRequestStatus_decides _ _ _ _ _ _ _ Hget).
    destruct (violation sr status data); cbn [snd committed serviceRequests].
    + split; [exists (fun r => r); apply Hsame | repeat split].
    + split; [eexists; reflexivity | repeat split].
  - unfold updateServiceRequestStatus. rewrite (bind_ok _ _ _ _ _ Hget). cbn [snd throw].
    split; [exists (fun r => r); apply Hsame | repeat split].
Qed.

(** X6.  A request for payment is accepted exactly when the request is in
    progress, requires payment, and the call brings an amount above zero and
    at least one image; the row then returned is PAYMENT_PENDING and carries
    the amount and, as [afterImages], the images. *)
Theorem payment_is_requested_exactly_when now id user data db sr :
  getServiceRequestById id db = (Ok (Some sr), db) ->
  isOk (fst (updateServiceRequestStatus now id ServiceRequestStatus.PAYMENT_PENDING
               user data db))
  = bool_decide (ServiceRequest.status sr = ServiceRequestStatus.IN_PROGRESS)
    && ServiceRequest.requiresPayment sr
    && match opt data StatusData.paymentAmount with
       | Some n => 0 <? n
       | None => false
       end
    && negb (noImages (opt data StatusData.images))
  /\ forall row,
       fst (updateServiceRequestStatus now id ServiceRequestStatus.PAYMENT_PENDING
              user data db) = Ok (Some row) ->
       ServiceRequest.status row = ServiceRequestStatus.PAYMENT_PENDING
       /\ ServiceRequest.paymentAmount row = opt data StatusData.paymentAmount
       /\ ServiceRequest.afterImages row
          = Some (JSON_stringify (imagesValue (opt data StatusData.images)))
       /\ ServiceRequest.beforeImages row = ServiceRequest.beforeImages sr.
Proof.
  intros Hget. rewrite (updateServiceRequestStatus_decides _ _ _ _ _ _ _ Hget).
  unfold violation. rewrite includes_validTransitions.
  destruct (ServiceRequest.status sr); cbn [tableEdge negb]; eval_tests;
    try (split; [reflexivity | intros row; discriminate]).
  destruct (ServiceRequest.requiresPayment sr); cbn [negb andb];
    [|split; [reflexivity | intros row; discriminate]].
  destruct (opt data StatusData.paymentAmount) as [n|] eqn:Hn; cbn [andb];
    [|split; [reflexivity | intros row; discriminate]].
  unfold truthyNumber.
  destruct (n =? 0) eqn:E0.
  { apply Z.eqb_eq in E0. subst n. cbn [negb orb andb Z.ltb Z.compare].
    split; [reflexivity | intros row; discriminate]. }
  cbn [negb orb].
  destruct (n <=? 0) eqn:E1.
  { replace (0 <? n) with false by (symmetry; apply Z.ltb_ge, Z.leb_le; exact E1).
    split; [reflexivity | intros row; discriminate]. }
  replace (0 <? n) with true by (symmetry; apply Z.ltb_lt, Z.leb_gt; exact E1).
  cbn [andb].
  destruct (noImages (opt data StatusData.images)) eqn:Himg; cbn [negb];
    [split; [reflexivity | intros row; discriminate]|].
  split; [reflexivity|].
  intros row H. cbn [fst] in H. injection H as <-.
  cbn [written ServiceRequest.status ServiceRequest.paymentAmount
       ServiceRequest.afterImages ServiceRequest.beforeImages].
  rewrite Hn, Himg. unfold truthyNumber. rewrite E0. eval_tests. repeat split.
Qed.

(** X7.  Cancelling asks for nothing: whoever calls and whatever the call
    carries, a request is cancelled unless it is COMPLETED or already
    CANCELLED; the cancelled row keeps its assigned agent. *)
Theorem cancellation_is_accepted_exactly_when now id user data db sr :
  getServiceRequestById id db = (Ok (Some sr), db) ->
  isOk (fst (updateServiceRequestStatus now id ServiceRequestStatus.CANCELLED
               user data db))
  = negb (bool_decide (ServiceRequest.status sr = ServiceRequestStatus.COMPLETED)
          || bool_decide (ServiceRequest.status sr = ServiceRequestStatus.CANCELLED))
  /\ forall row,
       fst (updateServiceRequestStatus now id ServiceRequestStatus.CANCELLED
              user data db) = Ok (Some row) ->
       ServiceRequest.status row = ServiceRequestStatus.CANCELLED
       /\ ServiceRequest.assignedToId row = ServiceRequest.assignedToId sr.
Proof.
  intros Hget. rewrite (updateServiceRequestStatus_decides _ _ _ _ _ _ _ Hget).
  unfold violation. rewrite includes_validTransitions.
  destruct (ServiceRequest.status sr); cbn [tableEdge negb]; eval_tests;
    (split; [reflexivity|]); intros row H; try discriminate;
    cbn [fst] in H; injection H as <-; split; reflexivity.
Qed.

Lemma waits_after_one_update i now id status user data db :
  (forall r, In r (serviceRequests db) -> ServiceRequest.id r = i -> waitsForAnAgent r) ->
  forall r,
    In r (serviceRequests (snd (updateServiceRequestStatus now id status user data db))) ->
    ServiceRequest.id r = i -> waitsForAnAgent r.
Proof.
  intros Hinv.
  pose proof (getServiceRequestById_runs id db) as Hget.
  destruct (find (fun r => bool_decide (ServiceRequest.id r = id)) (serviceRequests db))
    as [sr|] eqn:Hfind.
  - rewrite (updateServiceRequestStatus_decides _ _ _ _ _ _ _ Hget).
    destruct (violation sr status data) eqn:Hv; [exact Hinv|].
    cbn [snd committed serviceRequests]. intros r' Hin Hid.
    apply in_map_iff in Hin. destruct Hin as (r & Hr & Hin).
    destruct (bool_decide (ServiceRequest.id r = id)) eqn:E; subst r';
      [|exact (Hinv r Hin Hid)].
    apply bool_decide_eq_true_1 in E.
    cbn [written ServiceRequest.id] in Hid.
    destruct (Hinv r Hin Hid) as [Hagent _].
    apply find_some in Hfind. destruct Hfind as [Hsr Hsrid].
    apply bool_decide_eq_true_1 in Hsrid.
    assert (Hsri : ServiceRequest.id sr = i) by congruence.
    destruct (Hinv sr Hsr Hsri) as [Hagent' Hstatus].
    split; [exact Hagent|].
    cbn [written ServiceRequest.status].
    unfold violation in Hv. rewrite Hagent' in Hv.
    destruct Hstatus as [Hs|[Hs|Hs]]; rewrite Hs in Hv;
      destruct status; cbn [validTransitions includes existsb negb] in Hv;
      revert Hv; eval_tests; intros Hv; try discriminate; auto.
  - unfold updateServiceRequestStatus. rewrite (bind_ok _ _ _ _ _ Hget). exact Hinv.
Qed.

(** X8.  Status updates alone never get a request past assignment: if the
    rows carrying an id have no assigned agent and are CREATED, ASSIGNED or
    CANCELLED, they are so after any sequence of calls of
    [updateServiceRequestStatus].  The update never writes [assignedToId],
    and without it the target SCHEDULED is refused. *)
Theorem status_updates_alone_never_schedule i calls db :
  forallb isStatusUpdate calls = true ->
  (forall r, In r (serviceRequests db) -> ServiceRequest.id r = i -> waitsForAnAgent r) ->
  forall r,
    In r (serviceRequests (runAll calls db)) -> ServiceRequest.id r = i ->
    waitsForAnAgent r.
Proof.
  revert db. induction calls as [|c calls IH]; intros db Hupd Hinv; [exact Hinv|].
  cbn [forallb] in Hupd. apply andb_prop in Hupd. destruct Hupd as [Hc Hupd].
  cbn [runAll fold_left]. apply (IH _ Hupd).
  destruct c; try discriminate. cbn [run].
  apply waits_after_one_update. exact Hinv.
Qed.

(** ** Assignment and scheduling: who may, and what is written *)

(** X9.  [assignServiceAgent] succeeds only for an administrator or for the
    owner of the franchise of the request, and only with the id of a user
    whose role is SERVICE_AGENT; every row carrying the id then has that
    agent and the status ASSIGNED, and the row read again is returned. *)
Theorem assignServiceAgent_succeeds_only_for now id agentId user db x db' :
  assignServiceAgent now id agentId user db = (Ok x, db') ->
  exists sr agent,
    getServiceRequestById id db = (Ok (Some sr), db)
    /\ (role user = UserRole.ADMIN
        \/ (role user = UserRole.FRANCHISE_OWNER
            /\ exists f,
                 getFranchiseById (ServiceRequest.franchiseId sr) db = (Ok (Some f), db)
                 /\ Franchise.ownerId f = Some (userId user)))
    /\ getUserById agentId db = (Ok (Some agent), db)
    /\ User.role agent = UserRole.SERVICE_AGENT
    /\ x = Some (assignedTo now agentId sr)
    /\ serviceRequests db'
       = map (fun r => if bool_decide (ServiceRequest.id r = id)
                       then assignedTo now agentId r else r)
             (serviceRequests db).
Proof.
  unfold assignServiceAgent, getServiceRequestById, getFranchiseById, getUserById.
  run_monad.
  destruct (find (fun r => bool_decide (ServiceRequest.id r = id)) (serviceRequests db))
    as [sr|] eqn:Hfind; [|discriminate].
  destruct (role user) eqn:Hrole; eval_tests; try discriminate.
  2: destruct (find _ (franchises db)) as [f|] eqn:Hf; [|discriminate];
     destruct (bool_decide (Franchise.ownerId f = Some (userId user))) eqn:Hown;
     cbn [negb]; [|discriminate].
  all: destruct (find _ (users db)) as [a|] eqn:Ha; [|discriminate];
       destruct (bool_decide (User.role a = UserRole.SERVICE_AGENT)) eqn:Hsa;
       cbn [negb]; [|discriminate].
  all: project_rows;
       rewrite (map_ext _ (fun r => if bool_decide (ServiceRequest.id r = id)
                                    then assignedTo now agentId r else r))
         by (intros r; rewrite setServiceRequest_assign; reflexivity);
       rewrite find_by_id_map by reflexivity; rewrite Hfind;
       intros H; injection H as <- <-;
       apply bool_decide_eq_true_1 in Hsa;
       exists sr, a; split; [reflexivity|]; split.
  - left. reflexivity.
  - repeat split; assumption.
  - right. split; [reflexivity|]. exists f. split; [rewrite Hf; reflexivity|].
    apply bool_decide_eq_true_1 in Hown. exact Hown.
  - repeat split; assumption.
Qed.

(** X10.  [scheduleServiceRequest] succeeds only for an administrator, for
    the agent assigned to the request or for the owner of its franchise, and
    only with a text that parses to an instant after the evaluation time;
    every row carrying the id is then SCHEDULED and holds the instant in ISO
    form, not the text supplied. *)
Theorem scheduleServiceRequest_succeeds_only_for now id scheduledDate user db x db' :
  scheduleServiceRequest now id scheduledDate user db = (Ok x, db') ->
  exists sr instant,
    getServiceRequestById id db = (Ok (Some sr), db)
    /\ (role user = UserRole.ADMIN
        \/ (role user = UserRole.SERVICE_AGENT
            /\ ServiceRequest.assignedToId sr = Some (userId user))
        \/ (role user = UserRole.FRANCHISE_OWNER
            /\ exists f,
                 getFranchiseById (ServiceRequest.franchiseId sr) db = (Ok (Some f), db)
                 /\ Franchise.ownerId f = Some (userId user)))
    /\ parseDate scheduledDate = Some instant
    /\ now < instant
    /\ x = Some (scheduledAt now instant sr)
    /\ serviceRequests db'
       = map (fun r => if bool_decide (ServiceRequest.id r = id)
                       then scheduledAt now instant r else r)
             (serviceRequests db).
Proof.
  unfold scheduleServiceRequest, getServiceRequestById, getFranchiseById.
  run_monad.
  destruct (find (fun r => bool_decide (ServiceRequest.id r = id)) (serviceRequests db))
    as [sr|] eqn:Hfind; [|discriminate].
  destruct (role user) eqn:Hrole; eval_tests.
  2: destruct (find _ (franchises db)) as [f|] eqn:Hf; [|discriminate];
     destruct (bool_decide (Franchise.ownerId f = Some (userId user))) eqn:Hown;
     cbn [negb]; [|discriminate].
  3: destruct (bool_decide (ServiceRequest.assignedToId sr = Some (userId user)))
       eqn:Hmine; cbn [negb]; [|discriminate].
  4: discriminate.
  all: destruct (parseDate scheduledDate) as [instant|] eqn:Hparse; [|discriminate];
       destruct (instant <=? now) eqn:Hle; [discriminate|];
       apply Z.leb_gt in Hle;
       project_rows;
       rewrite (map_ext _ (fun r => if bool_decide (ServiceRequest.id r = id)
                                    then scheduledAt now instant r else r))
         by (intros r; rewrite setServiceRequest_schedule; reflexivity);
       rewrite find_by_id_map by reflexivity; rewrite Hfind;
       intros H; injection H as <- <-;
       exists sr, instant; split; [reflexivity|]; split.
  - left. reflexivity.
  - repeat split; assumption.
  - right. right. split; [reflexivity|]. exists f. split; [rewrite Hf; reflexivity|].
    apply bool_decide_eq_true_1 in Hown. exact Hown.
  - repeat split; assumption.
  - right. left. split; [reflexivity|].
    apply bool_decide_eq_true_1 in Hmine. exact Hmine.
  - repeat split; assumption.
Qed.

(** X11.  A text that is no date is not answered as a bad request: for an
    administrator or the assigned agent, [scheduleServiceRequest] passes the
    comparison with the clock and throws the range error of [toISOString];
    nothing is written. *)
Theorem scheduleServiceRequest_throws_on_unparsable_text
  now id scheduledDate user db sr :
  getServiceRequestById id db = (Ok (Some sr), db) ->
  role user = UserRole.ADMIN
  \/ (role user = UserRole.SERVICE_AGENT
      /\ ServiceRequest.assignedToId sr = Some (userId user)) ->
  parseDate scheduledDate = None ->
  scheduleServiceRequest now id scheduledDate user db = (Err RangeError, db).
Proof.
  intros Hget Hperm Hparse.
  unfold scheduleServiceRequest.
  rewrite (bind_ok _ _ _ _ _ Hget). rewrite Hparse.
  destruct Hperm as [Hrole | [Hrole Hmine]]; rewrite Hrole; eval_tests.
  - reflexivity.
  - rewrite (bool_decide_eq_true_2 _ Hmine). reflexivity.
Qed.

Lemma assignServiceAgent_returns_the_assigned_row now id agentId user db x db' :
  assignServiceAgent now id agentId user db = (Ok x, db') ->
  exists sr,
    x = Some (assignedTo now agentId sr)
    /\ getServiceRequestById id db' = (Ok x, db').
Proof.
  unfold assignServiceAgent, getServiceRequestById. run_monad.
  split_tests; try discriminate.
  all: project_rows;
       rewrite (map_ext _ (fun r => if bool_decide (ServiceRequest.id r = id)
                                    then assignedTo now agentId r else r))
         by (intros r; rewrite setServiceRequest_assign; reflexivity);
       rewrite find_by_id_map by reflexivity;
       intros Hrun;
       match goal with
       | Hf : find _ (serviceRequests _) = Some ?sr |- _ =>
           rewrite Hf in Hrun; exists sr
       end;
       injection Hrun as <- <-; cbn [option_map]; split; [reflexivity|];
       unfold query; project_rows; rewrite find_by_id_map by reflexivity;
       match goal with
       | Hf : find _ (serviceRequests _) = Some _ |- _ => rewrite Hf
       end; reflexivity.
Qed.

(** X12.  Assignment opens scheduling to the agent: once
    [assignServiceAgent] has succeeded with an agent id, the user with that
    id and the role SERVICE_AGENT may schedule the request for any instant
    after the evaluation time, and the row is SCHEDULED, still assigned to
    that agent. *)
Theorem assigned_agent_may_schedule
  now1 now2 id agentId user agentUser scheduledDate instant db x db1 :
  assignServiceAgent now1 id agentId user db = (Ok x, db1) ->
  role agentUser = UserRole.SERVICE_AGENT ->
  userId agentUser = agentId ->
  parseDate scheduledDate = Some instant ->
  now2 < instant ->
  exists row db2,
    scheduleServiceRequest now2 id scheduledDate agentUser db1 = (Ok (Some row), db2)
    /\ ServiceRequest.status row = ServiceRequestStatus.SCHEDULED
    /\ ServiceRequest.assignedToId row = Some agentId
    /\ ServiceRequest.scheduledDate row = Some (toISOString instant).
Proof.
  intros Hassign Hrole Hid Hparse Hlt.
  destruct (assignServiceAgent_returns_the_assigned_row _ _ _ _ _ _ _ Hassign)
    as (sr & -> & Hget).
  unfold scheduleServiceRequest.
  rewrite (bind_ok _ _ _ _ _ Hget). rewrite Hrole, Hparse, Hid.
  cbn [assignedTo ServiceRequest.assignedToId ServiceRequest.status].
  eval_tests. rewrite (bool_decide_eq_true_2 _ eq_refl). cbn [andb].
  rewrite (bind_ok _ _ db1 true db1) by reflexivity.
  replace (instant <=? now2) with false by (symmetry; apply Z.leb_gt; exact Hlt).
  cbn [negb].
  rewrite (bind_ok _ _ db1 tt db1) by reflexivity.
  rewrite (bind_ok _ _ db1 tt db1) by reflexivity.
  apply getServiceRequestById_found in Hget.
  unfold getServiceRequestById. run_monad. project_rows.
  rewrite (map_ext _ (fun r => if bool_decide (ServiceRequest.id r = id)
                               then scheduledAt now2 instant r else r))
    by (intros r; rewrite setServiceRequest_schedule; reflexivity).
  rewrite find_by_id_map by reflexivity. rewrite Hget.
  eexists _, _. split; [reflexivity|]. repeat split.
Qed.

(** ** Creating a service request *)

Lemma find_by_id_appended i (l : list ServiceRequest.t) row :
  find (fun r => bool_decide (ServiceRequest.id r = i)) l = None ->
  ServiceRequest.id row = i ->
  find (fun r => bool_decide (ServiceRequest.id r = i)) (l ++ [row]) = Some row.
Proof.
  intros Hnone Hid. induction l as [|r l IH]; cbn [app find].
  - rewrite (bool_decide_eq_true_2 _ Hid). reflexivity.
  - cbn [find] in Hnone.
    destruct (bool_decide (ServiceRequest.id r = i)); [discriminate|].
    exact (IH Hnone).
Qed.

(** X13.  A successful [createServiceRequest] appends one row and changes
    no other: the new row carries the given id, is CREATED, belongs to the
    acting user, has no agent and no completion date, requires payment only
    if the call says so, and always has a franchise; one history entry is
    appended and the row read back by id is returned. *)
Theorem createServiceRequest_appends_a_created_row now id data user db x db' :
  createServiceRequest now id data user db = (Ok x, db') ->
  exists row franchise,
    serviceRequests db' = (serviceRequests db ++ [row])%list
    /\ ServiceRequest.id row = id
    /\ ServiceRequest.status row = ServiceRequestStatus.CREATED
    /\ ServiceRequest.customerId row = userId user
    /\ ServiceRequest.productId row = CreateData.productId data
    /\ ServiceRequest.type row = CreateData.type data
    /\ ServiceRequest.assignedToId row = None
    /\ ServiceRequest.completedDate row = None
    /\ ServiceRequest.requiresPayment row
       = match CreateData.requiresPayment data with Some b => b | None => false end
    /\ ServiceRequest.franchiseId row = Some franchise
    /\ x = find (fun r => bool_decide (ServiceRequest.id r = id)) (serviceRequests db')
    /\ actionHistory db'
       = (actionHistory db
          ++ [createServiceRequestStatusAction id None ServiceRequestStatus.CREATED
                (userId user)])%list
    /\ installationRequests db' = installationRequests db
    /\ subscriptions db' = subscriptions db.
Proof.
  unfold createServiceRequest, getServiceRequestById. run_monad.
  split_tests; try discriminate.
  all: project_rows; intros Hrun; injection Hrun as <- <-; project_rows;
       eexists _, _; repeat split.
Qed.

(** X14.  A subscription comes first: when the call names a subscription
    of the acting user, the franchise is the one of the subscription and an
    installation request named in the same call is stored on the row without
    being looked up, so it need not exist nor belong to the user. *)
Theorem createServiceRequest_subscription_comes_first
  now id data user db product subscription :
  find (fun p => bool_decide (Product.id p = CreateData.productId data)) (products db)
  = Some product ->
  truthy (CreateData.subscriptionId data) = true ->
  find (fun s => bool_decide (Some (Subscription.id s) = CreateData.subscriptionId data))
       (subscriptions db) = Some subscription ->
  Subscription.customerId subscription = userId user ->
  exists row db',
    createServiceRequest now id data user db
    = (Ok (find (fun r => bool_decide (ServiceRequest.id r = id)) (serviceRequests db')),
       db')
    /\ serviceRequests db' = (serviceRequests db ++ [row])%list
    /\ ServiceRequest.subscriptionId row = CreateData.subscriptionId data
    /\ ServiceRequest.installationRequestId row
       = orNull (CreateData.installationRequestId data)
    /\ ServiceRequest.franchiseId row = Some (Subscription.franchiseId subscription).
Proof.
  intros Hproduct Htruthy Hsub Hmine.
  unfold createServiceRequest, getServiceRequestById. run_monad.
  rewrite Hproduct, Htruthy, Hsub, (bool_decide_eq_true_2 _ Hmine).
  cbn [negb]. project_rows.
  lazymatch goal with
  | |- exists _ _, (_, ?d) = _ /\ _ =>
      lazymatch d with
      | context [(serviceRequests db ++ [?row])%list] => exists row, d
      end
  end.
  project_rows.
  split; [reflexivity|]. split; [reflexivity|]. split; [|split; reflexivity].
  cbn [ServiceRequest.subscriptionId]. unfold orNull. rewrite Htruthy. reflexivity.
Qed.

(** X15.  Images come back as they went in: after a successful
    [createServiceRequest] under an id that no row carried, the row returned
    reads back the images of the call, provided the parser undoes the
    serializer on them; no images, or an empty list, read back as the empty
    list, and so do the before- and after-images of the new row. *)
Theorem created_images_read_back now id data user db x db' :
  (forall i l, CreateData.images data = Some (i :: l) ->
               JSON_parse (JSON_stringify (i :: l)) = Some (i :: l)) ->
  find (fun r => bool_decide (ServiceRequest.id r = id)) (serviceRequests db) = None ->
  createServiceRequest now id data user db = (Ok x, db') ->
  exists row,
    x = Some row
    /\ parsedImages row
       = (match CreateData.images data with Some l => l | None => [] end, [], []).
Proof.
  intros Hcodec Hfresh.
  unfold createServiceRequest, getServiceRequestById. run_monad.
  destruct (CreateData.images data) as [[|i l]|] eqn:Himages.
  all: split_tests; try discriminate.
  all: project_rows; intros Hrun; injection Hrun as <- <-;
       match goal with
       | |- context [find _ (?l ++ [?row])%list] =>
           rewrite (find_by_id_appended _ l row Hfresh eq_refl)
       end;
       eexists; split; [reflexivity|];
       unfold parsedImages, parseJsonSafe;
       cbn [ServiceRequest.images ServiceRequest.beforeImages ServiceRequest.afterImages];
       try reflexivity.
  all: rewrite (Hcodec i l eq_refl); reflexivity.
Qed.

(** ** Creating an installation service request *)

(** X16.  The inserting branch: when the installation request is in the
    store and has no service request of type INSTALLATION yet, a successful
    [createInstallationServiceRequest] appends one row that is of type
    INSTALLATION, requires payment, is linked to the installation request and
    takes customer, product and franchise from it; the row is SCHEDULED if
    an agent is named and CREATED if not, and every installation request
    carrying the id becomes INSTALLATION_SCHEDULED. *)
Theorem createInstallationServiceRequest_inserts_a_payable_request
  now id data user db installationRequest x db' :
  find (fun r => bool_decide
                   (InstallationRequest.id r = InstallationData.installationRequestId data))
       (installationRequests db) = Some installationRequest ->
  find (fun r =>
          bool_decide (ServiceRequest.installationRequestId r
                       = Some (InstallationData.installationRequestId data))
          && bool_decide (ServiceRequest.type r = ServiceRequestType.INSTALLATION))
       (serviceRequests db) = None ->
  createInstallationServiceRequest now id data user db = (Ok x, db') ->
  exists row,
    serviceRequests db' = (serviceRequests db ++ [row])%list
    /\ ServiceRequest.id row = id
    /\ ServiceRequest.type row = ServiceRequestType.INSTALLATION
    /\ ServiceRequest.requiresPayment row = true
    /\ ServiceRequest.installationRequestId row
       = Some (InstallationData.installationRequestId data)
    /\ ServiceRequest.customerId row = InstallationRequest.customerId installationRequest
    /\ ServiceRequest.productId row = InstallationRequest.productId installationRequest
    /\ ServiceRequest.franchiseId row
       = Some (InstallationRequest.franchiseId installationRequest)
    /\ ServiceRequest.status row
       = (if truthy (InstallationData.assignedToId data)
          then ServiceRequestStatus.SCHEDULED else ServiceRequestStatus.CREATED)
    /\ ServiceRequest.assignedToId row = orNull (InstallationData.assignedToId data)
    /\ (forall r, In r (installationRequests db') ->
                  InstallationRequest.id r = InstallationData.installationRequestId data ->
                  InstallationRequest.status r
                  = Some InstallationRequestStatus.INSTALLATION_SCHEDULED).
Proof.
  intros Hir Hsr.
  pose proof (find_some _ _ Hir) as [_ Hirid].
  apply bool_decide_eq_true_1 in Hirid.
  unfold createInstallationServiceRequest, getServiceRequestById. run_monad.
  rewrite Hir, Hsr.
  split_tests; try discriminate.
  all: project_rows; intros Hrun; injection Hrun as <- <-; project_rows;
       eexists; repeat split;
       intros r' Hin Hid; apply in_map_iff in Hin; destruct Hin as (r & <- & Hin);
       rewrite Hirid in Hid |- *;
       match goal with
       | |- context [bool_decide (InstallationRequest.id r = ?i)] =>
           destruct (bool_decide (InstallationRequest.id r = i)) eqn:E
       end;
       [ reflexivity | apply bool_decide_eq_false_1 in E; contradiction ].
Qed.

Lemma find_map_preserved {A} (p : A -> bool) (f : A -> A) l :
  (forall r, p (f r) = p r) -> find p (map f l) = option_map f (find p l).
Proof.
  intros Hp. induction l as [|a l IH]; [reflexivity|].
  cbn [map find]. rewrite Hp. destruct (p a); [reflexivity | exact IH].
Qed.

Lemma find_app_fresh {A} (p : A -> bool) l row :
  find p l = None -> p row = true -> find p (l ++ [row])%list = Some row.
Proof.
  intros Hl Hrow. induction l as [|a l IH].
  - cbn. rewrite Hrow. reflexivity.
  - cbn [find app] in *. destruct (p a); [discriminate | exact (IH Hl)].
Qed.

(** After a successful [createInstallationServiceRequest] the store holds
    the installation request named and a service request of type
    INSTALLATION linked to it. *)
Lemma createInstallationServiceRequest_leaves_a_linked_request
  now id data user db x db' :
  createInstallationServiceRequest now id data user db = (Ok x, db') ->
  (exists installationRequest,
     find (fun r => bool_decide
                      (InstallationRequest.id r = InstallationData.installationRequestId data))
          (installationRequests db') = Some installationRequest)
  /\ (exists existing,
        find (fun r =>
                bool_decide (ServiceRequest.installationRequestId r
                             = Some (InstallationData.installationRequestId data))
                && bool_decide (ServiceRequest.type r = ServiceRequestType.INSTALLATION))
             (serviceRequests db') = Some existing).
Proof.
  unfold createInstallationServiceRequest, getServiceRequestById. run_monad.
  destruct (find _ (installationRequests db)) as [ir|] eqn:Hir; [|discriminate].
  destruct (find _ (serviceRequests db)) as [e|] eqn:Hsr.
  - project_rows. intros Hrun. injection Hrun as <- <-. project_rows. split.
    + rewrite find_map_preserved, Hir; [eexists; reflexivity|].
      intros r. destruct (bool_decide (InstallationRequest.id r = _)); reflexivity.
    + rewrite find_map_preserved, Hsr; [eexists; reflexivity|].
      intros r. destruct (bool_decide (ServiceRequest.id r = _)); [|reflexivity].
      cbn [setServiceRequest ServiceRequest.installationRequestId ServiceRequest.type].
      unfold_columns. rewrite !lookup_insert_key, !lookup_singleton_key. eval_keys.
      reflexivity.
  - split_tests; try discriminate.
    all: project_rows; intros Hrun; injection Hrun as <- <-; project_rows; split;
      [ rewrite find_map_preserved, Hir;
        [ eexists; reflexivity
        | intros r; destruct (bool_decide (InstallationRequest.id r = _)); reflexivity ]
      | eexists; apply find_app_fresh; [exact Hsr|];
        cbn [ServiceRequest.installationRequestId ServiceRequest.type];
        rewrite !bool_decide_eq_true_2 by reflexivity; reflexivity ].
Qed.

(** X17.  Calling twice never duplicates: after a successful
    [createInstallationServiceRequest], a second call naming the same
    installation request succeeds whoever makes it, whichever agent, date
    and fresh id it supplies, and leaves the table of service requests with
    the same rows in the same order, identity columns unchanged. *)
Theorem createInstallationServiceRequest_never_duplicates
  now1 now2 id1 id2 data1 data2 user1 user2 db x db1 :
  createInstallationServiceRequest now1 id1 data1 user1 db = (Ok x, db1) ->
  InstallationData.installationRequestId data2
  = InstallationData.installationRequestId data1 ->
  exists y db2,
    createInstallationServiceRequest now2 id2 data2 user2 db1 = (Ok y, db2)
    /\ map identity (serviceRequests db2) = map identity (serviceRequests db1).
Proof.
  intros Hrun Hsame.
  destruct (createInstallationServiceRequest_leaves_a_linked_request _ _ _ _ _ _ _ Hrun)
    as [[ir Hir] [e Hsr]].
  rewrite <- Hsame in Hir, Hsr.
  unfold createInstallationServiceRequest, getServiceRequestById. run_monad.
  rewrite Hir, Hsr. project_rows.
  eexists. eexists. split; [reflexivity|]. project_rows.
  apply identity_rewritten. intros r.
  apply identity_setServiceRequest; literal_lookup.
Qed.

(** ** Listing service requests *)

Lemma compare_not_Gt_trans (a b c : string) :
  String.compare a b <> Gt -> String.compare b c <> Gt -> String.compare a c <> Gt.
Proof.
  revert b c. induction a as [|x a IH]; intros [|y b] [|z c]; cbn; try congruence.
  unfold Ascii.compare.
  destruct (N.compare_spec (Ascii.N_of_ascii x) (Ascii.N_of_ascii y)) as [Hxy|Hxy|Hxy];
    destruct (N.compare_spec (Ascii.N_of_ascii y) (Ascii.N_of_ascii z)) as [Hyz|Hyz|Hyz];
    try congruence; intros Hab Hbc.
  - rewrite Hxy, Hyz, N.compare_refl. exact (IH _ _ Hab Hbc).
  - rewrite Hxy. rewrite (proj2 (N.compare_lt_iff _ _) Hyz). discriminate.
  - rewrite <- Hyz. rewrite (proj2 (N.compare_lt_iff _ _) Hxy). discriminate.
  - rewrite (proj2 (N.compare_lt_iff _ _) (N.lt_trans _ _ _ Hxy Hyz)). discriminate.
Qed.

Lemma leb_not_Gt (a b : string) : String.leb a b = true <-> String.compare a b <> Gt.
Proof. unfold String.leb. destruct (String.compare a b); split; congruence. Qed.

#[local] Instance newerFirst_transitive : Transitive newerFirst.
Proof.
  intros a b c Hab Hbc. unfold newerFirst in *.
  apply leb_not_Gt. apply leb_not_Gt in Hab, Hbc.
  exact (compare_not_Gt_trans _ _ _ Hbc Hab).
Qed.

#[local] Instance newerFirst_total : Total newerFirst.
Proof. intros a b. unfold newerFirst. destruct (String.leb_total (ServiceRequest.createdAt a) (ServiceRequest.createdAt b)); auto. Qed.

Lemma in_merge_sort (l : list ServiceRequest.t) r :
  In r (merge_sort newerFirst l) <-> In r l.
Proof.
  split; apply Permutation_in;
    [ apply merge_sort_Permutation | symmetry; apply merge_sort_Permutation ].
Qed.

Lemma meets_filterConditions filters r :
  forallb (fun c => c r) (filterConditions filters) = true <-> meets filters r.
Proof.
  unfold filterConditions, meets, truthy.
  destruct filters as [st ty fr cu]. cbn [Filters.status Filters.type Filters.franchiseId Filters.customerId].
  rewrite !forallb_app.
  rewrite !andb_true_iff.
  assert (Hst : forallb (fun c : ServiceRequest.t -> bool => c r)
                  match st with
                  | Some st0 => [fun r0 => bool_decide (ServiceRequest.status r0 = st0)]
                  | None => []
                  end = true
                <-> (forall s, st = Some s -> ServiceRequest.status r = s)).
  { destruct st as [s|]; cbn.
    - rewrite andb_true_r, bool_decide_eq_true. split; [intros H ? [= <-]; exact H | auto].
    - split; [intros _ ? [=] | reflexivity]. }
  assert (Hopt : forall (o : option string) (col : ServiceRequest.t -> option string),
             forallb (fun c : ServiceRequest.t -> bool => c r)
               (if match o with
                   | Some s => negb (bool_decide (s = EmptyString))
                   | None => false
                   end
                then [fun r0 => bool_decide (col r0 = o)] else []) = true
             <-> (forall t, o = Some t -> t <> EmptyString -> col r = Some t)).
  { intros [s|] col; cbn.
    - destruct (bool_decide (s = EmptyString)) eqn:E; cbn.
      + apply bool_decide_eq_true_1 in E. split; [intros _ ? [= <-] ?; contradiction | reflexivity].
      + apply bool_decide_eq_false_1 in E. rewrite andb_true_r, bool_decide_eq_true.
        split; [intros H ? [= <-] _; exact H | auto].
    - split; [intros _ ? [=] | reflexivity]. }
  rewrite Hst.
  rewrite (Hopt ty (fun r0 => Some (ServiceRequest.type r0))).
  rewrite (Hopt fr ServiceRequest.franchiseId).
  rewrite (Hopt cu (fun r0 => Some (ServiceRequest.customerId r0))).
  split.
  - intros (H1 & H2 & H3 & H4). repeat split; auto.
    + intros t Ht Hne. specialize (H2 t Ht Hne). congruence.
    + intros c Hc Hne. specialize (H4 c Hc Hne). congruence.
  - intros (H1 & H2 & H3 & H4). repeat split; auto.
    + intros t Ht Hne. rewrite (H2 t Ht Hne). reflexivity.
    + intros c Hc Hne. rewrite (H4 c Hc Hne). reflexivity.
Qed.

(** X18.  [getAllServiceRequests] never fails and never writes, and it
    lists exactly the rows of the table that the role of the user lets them
    see and that meet the filters: a filter narrows the list and never widens
    it, an empty text as filter is no filter, and a franchise owner who owns
    no franchise is shown nothing. *)
Theorem getAllServiceRequests_lists_exactly_the_visible_rows filters user db :
  exists listed,
    getAllServiceRequests filters user db = (Ok listed, db)
    /\ forall r, In r listed
                 <-> In r (serviceRequests db) /\ mayView user db r /\ meets filters r.
Proof.
  unfold getAllServiceRequests, mayView. run_monad.
  destruct user as [uid [] ]; cbn [role userId]; eval_tests.
  2: destruct (find _ (franchises db)) as [f|] eqn:Hf.
  all: eexists; (split; [reflexivity|]); intros r.
  all: try (rewrite in_merge_sort, filter_In, forallb_app, andb_true_iff,
              meets_filterConditions; cbn [forallb]).
  all: rewrite ?andb_true_r, ?bool_decide_eq_true.
  - tauto.
  - split.
    + intros (Hin & Hfr & Hm). split; [exact Hin|]. split; [eauto | exact Hm].
    + intros (Hin & (f' & [= <-] & Hfr) & Hm). tauto.
  - split; [intros [] | intros (_ & (f' & [=] & _) & _)].
  - tauto.
  - tauto.
Qed.

(** X19.  The list of [getAllServiceRequests] is ordered newest first:
    every row has a [createdAt] no smaller, as text, than that of every row
    after it; and a row is listed as many times as the table holds it, so
    that distinct ids in the table give distinct ids in the list. *)
Theorem getAllServiceRequests_newest_first_without_repeats filters user db :
  exists listed,
    fst (getAllServiceRequests filters user db) = Ok listed
    /\ StronglySorted
         (fun a b => String.leb (ServiceRequest.createdAt b) (ServiceRequest.createdAt a)
                     = true)
         listed
    /\ (List.NoDup (map ServiceRequest.id (serviceRequests db)) ->
        List.NoDup (map ServiceRequest.id listed)).
Proof.
  assert (Hsub : forall (p : ServiceRequest.t -> bool) l,
             List.NoDup (map ServiceRequest.id l) ->
             List.NoDup (map ServiceRequest.id (List.filter p l))).
  { intros p l. induction l as [|a l IH]; cbn [List.filter map]; [auto|].
    intros Hnd. apply List.NoDup_cons_iff in Hnd. destruct Hnd as [Hnotin Hnd].
    destruct (p a); [|auto]. cbn [map]. apply List.NoDup_cons_iff. split; [|auto].
    intros Hin. apply Hnotin. apply in_map_iff in Hin. destruct Hin as (x & Hx & Hin).
    apply filter_In in Hin. apply in_map_iff. exists x. tauto. }
  assert (Hsorted : forall l,
             StronglySorted newerFirst (merge_sort newerFirst l)
             /\ (List.NoDup (map ServiceRequest.id l) ->
                 List.NoDup (map ServiceRequest.id (merge_sort newerFirst l)))).
  { intros l. split; [apply StronglySorted_merge_sort; apply _|].
    intros Hnd. eapply Permutation_NoDup; [|exact Hnd].
    apply Permutation_map. symmetry. apply merge_sort_Permutation. }
  unfold getAllServiceRequests. run_monad.
  destruct user as [uid [] ]; cbn [role userId]; eval_tests.
  2: destruct (find _ (franchises db)) as [f|] eqn:Hf.
  all: eexists; (split; [reflexivity|]).
  1-2,4-5: split; [apply Hsorted | intros Hnd; apply Hsorted, Hsub, Hnd].
  split; [constructor | intros _; constructor].
Qed.

(** ** The validators and the synchronizer that no function calls *)

(** X20.  [validateServiceRequestTransition] guards four edges and nothing
    else: for every other pair of current and requested status, in the
    transition table or not, it accepts, whatever the type of the request,
    the evidence and the payments on record, and it leaves the store as it
    was. *)
Theorem validateServiceRequestTransition_guards_four_edges_only sr newStatus images db :
  ~ In (ServiceRequest.status sr, newStatus)
       [ (ServiceRequestStatus.SCHEDULED, ServiceRequestStatus.IN_PROGRESS);
         (ServiceRequestStatus.IN_PROGRESS, ServiceRequestStatus.PAYMENT_PENDING);
         (ServiceRequestStatus.IN_PROGRESS, ServiceRequestStatus.COMPLETED);
         (ServiceRequestStatus.PAYMENT_PENDING, ServiceRequestStatus.COMPLETED) ] ->
  validateServiceRequestTransition sr newStatus images db = (Ok tt, db).
Proof.
  intros Hout.
  unfold validateServiceRequestTransition, validateInstallationSpecificTransitions.
  destruct (ServiceRequest.status sr), newStatus;
    try (exfalso; apply Hout; cbn; tauto);
    eval_tests; run_monad;
    destruct (bool_decide (ServiceRequest.type sr = ServiceRequestType.INSTALLATION));
    reflexivity.
Qed.

(** X21.  [syncInstallationRequestStatus] always succeeds and leaves the
    service requests alone.  Every installation request carrying the id
    keeps its technician and ends without a status exactly when the service
    status is CREATED, ASSIGNED or SCHEDULED, the three that the [switch]
    does not map; and the one history entry it appends records the service
    status as [fromStatus] and ASSIGNED as [toStatus], whatever the service
    status is. *)
Theorem syncInstallationRequestStatus_clears_unmapped_statuses
  installationRequestId status user serviceRequestId db :
  exists db' entry,
    syncInstallationRequestStatus installationRequestId status user serviceRequestId db
    = (Ok tt, db')
    /\ serviceRequests db' = serviceRequests db
    /\ actionHistory db' = (actionHistory db ++ [entry])%list
    /\ fromStatus entry = OfServiceRequest status
    /\ toStatus entry = OfServiceRequest ServiceRequestStatus.ASSIGNED
    /\ length (installationRequests db') = length (installationRequests db)
    /\ forall r, In r (installationRequests db) ->
                 InstallationRequest.id r = installationRequestId ->
                 exists r',
                   In r' (installationRequests db')
                   /\ InstallationRequest.id r' = installationRequestId
                   /\ InstallationRequest.assignedTechnicianId r'
                      = InstallationRequest.assignedTechnicianId r
                   /\ (InstallationRequest.status r' = None
                       <-> In status [ ServiceRequestStatus.CREATED;
                                       ServiceRequestStatus.ASSIGNED;
                                       ServiceRequestStatus.SCHEDULED ]).
Proof.
  unfold syncInstallationRequestStatus.
  destruct status; run_monad; project_rows.
  all: eexists; eexists; (split; [reflexivity|]); project_rows.
  all: split; [reflexivity|]; split; [reflexivity|]; split; [reflexivity|];
       split; [reflexivity|]; split; [apply length_map|].
  all: intros r Hin Hid; eexists; split;
       [ apply in_map_iff; exists r; split; [reflexivity | exact Hin] |];
       rewrite (bool_decide_eq_true_2 _ Hid);
       cbn [setInstallationRequest InstallationRequest.id InstallationRequest.status
            InstallationRequest.assignedTechnicianId];
       split; [exact Hid|]; split; [reflexivity|].
  all: cbn [In]; split; intros H; try discriminate; try tauto.
  all: repeat (destruct H as [H|H]; try discriminate); try contradiction.
Qed.

(** ** The action type of a status *)

(** X22.  [getActionTypeForStatus] tells every status apart but two:
    PAYMENT_PENDING and COMPLETED both give SERVICE_REQUEST_COMPLETED; and
    it never gives an action type of installation requests. *)
Theorem getActionTypeForStatus_merges_only_payment_pending_and_completed a b :
  (getActionTypeForStatus a = getActionTypeForStatus b
   <-> a = b
       \/ (a = ServiceRequestStatus.PAYMENT_PENDING /\ b = ServiceRequestStatus.COMPLETED)
       \/ (a = ServiceRequestStatus.COMPLETED /\ b = ServiceRequestStatus.PAYMENT_PENDING))
  /\ In (getActionTypeForStatus a)
        [ ActionType.SERVICE_REQUEST_CREATED; ActionType.SERVICE_REQUEST_ASSIGNED;
          ActionType.SERVICE_REQUEST_SCHEDULED; ActionType.SERVICE_REQUEST_IN_PROGRESS;
          ActionType.SERVICE_REQUEST_COMPLETED; ActionType.SERVICE_REQUEST_CANCELLED ].
Proof.
  split.
  - destruct a, b; cbn; split; intros H; try discriminate H; try tauto;
      repeat (destruct H as [H|H]); try discriminate H;
        destruct H as [H1 H2]; discriminate.
  - destruct a; cbn; tauto.
Qed.

End Service.

(** ** The operations at concrete requests *)

(** C1, at a request.  A cancelled request asked to go IN_PROGRESS. *)
Lemma cancelled_to_in_progress_is_rejected :
  updateServiceRequestStatus exampleStringify exampleISO exampleNow "srq1"
    ServiceRequestStatus.IN_PROGRESS adminUser (withImages ["before.jpg"])
    (exampleStore [exampleRequest ServiceRequestStatus.CANCELLED "repair" false
                     (Some "agent1") None])
  = (Err (badRequest
       "Invalid status transition from CANCELLED to IN_PROGRESS. Valid transitions are: ASSIGNED, SCHEDULED"),
     exampleStore [exampleRequest ServiceRequestStatus.CANCELLED "repair" false
                     (Some "agent1") None]).
Proof.
  apply (updateServiceRequestStatus_rejects_non_edge exampleStringify exampleISO
           exampleNow "srq1" ServiceRequestStatus.IN_PROGRESS adminUser
           (withImages ["before.jpg"]) _
           (exampleRequest ServiceRequestStatus.CANCELLED "repair" false
              (Some "agent1") None)).
  - reflexivity.
  - left. reflexivity.
Defined.

(** C8, at a request.  A payable request in progress asked to complete,
    completion images supplied. *)
Lemma payable_in_progress_to_completed_is_rejected :
  updateServiceRequestStatus exampleStringify exampleISO exampleNow "srq1"
    ServiceRequestStatus.COMPLETED agentUser (withImages ["after.jpg"])
    (exampleStore [exampleRequest ServiceRequestStatus.IN_PROGRESS "repair" true
                     (Some "agent1") None])
  = (Err (badRequest
       "Service requests requiring payment must go through PAYMENT_PENDING status first"),
     exampleStore [exampleRequest ServiceRequestStatus.IN_PROGRESS "repair" true
                     (Some "agent1") None]).
Proof.
  apply (payment_request_never_completes_from_in_progress exampleStringify exampleISO
           exampleNow "srq1" agentUser (withImages ["after.jpg"]) _
           (exampleRequest ServiceRequestStatus.IN_PROGRESS "repair" true
              (Some "agent1") None)).
  - reflexivity.
  - reflexivity.
  - reflexivity.
Defined.

(** C2, counterexample.  The claim lets a request of type INSTALLATION
    start without any image and requires one from every other type.  A
    scheduled installation request asked to go IN_PROGRESS with no image is
    thrown back; a scheduled repair request with no image is accepted. *)
Lemma installation_start_without_images_is_rejected :
  updateServiceRequestStatus exampleStringify exampleISO exampleNow "srq1"
    ServiceRequestStatus.IN_PROGRESS agentUser None
    (exampleStore [exampleRequest ServiceRequestStatus.SCHEDULED
                     ServiceRequestType.INSTALLATION true (Some "agent1") (Some "ir1")])
  = (Err (badRequest
       "Before images are required to start installation service requests"),
     exampleStore [exampleRequest ServiceRequestStatus.SCHEDULED
                     ServiceRequestType.INSTALLATION true (Some "agent1") (Some "ir1")])
  /\ isOk (fst (updateServiceRequestStatus exampleStringify exampleISO exampleNow "srq1"
                  ServiceRequestStatus.IN_PROGRESS agentUser None
                  (exampleStore [exampleRequest ServiceRequestStatus.SCHEDULED "repair"
                                   false (Some "agent1") None])))
     = true.
Proof. split; vm_compute; reflexivity. Qed.

(** C2 (as amended), at a request. *)
Lemma installation_start_with_an_image_is_accepted :
  exists row db',
    updateServiceRequestStatus exampleStringify exampleISO exampleNow "srq1"
      ServiceRequestStatus.IN_PROGRESS agentUser (withImages ["before.jpg"])
      (exampleStore [exampleRequest ServiceRequestStatus.SCHEDULED
                       ServiceRequestType.INSTALLATION true (Some "agent1") (Some "ir1")])
    = (Ok (Some row), db')
    /\ getServiceRequestById "srq1" db' = (Ok (Some row), db')
    /\ ServiceRequest.status row = ServiceRequestStatus.IN_PROGRESS
    /\ ServiceRequest.beforeImages row = Some "[before.jpg]".
Proof.
  apply (in_progress_requires_images_for_installation exampleStringify exampleISO
           exampleNow "srq1" agentUser (withImages ["before.jpg"]) _
           (exampleRequest ServiceRequestStatus.SCHEDULED
              ServiceRequestType.INSTALLATION true (Some "agent1") (Some "ir1"))).
  - reflexivity.
  - reflexivity.
  - reflexivity.
Defined.


(** C3, at the failing request.  An installation request in progress that
    does not require payment, completion images supplied:
    [updateServiceRequestStatus] completes it, while the validator written
    for installation requests throws at the same request. *)
Theorem installation_completes_without_payment_pending :
  (exists row db',
     updateServiceRequestStatus exampleStringify exampleISO exampleNow "srq1"
       ServiceRequestStatus.COMPLETED agentUser (withImages ["after.jpg"])
       (exampleStore [exampleRequest ServiceRequestStatus.IN_PROGRESS
                        ServiceRequestType.INSTALLATION false (Some "agent1")
                        (Some "ir1")])
     = (Ok (Some row), db')
     /\ getServiceRequestById "srq1" db' = (Ok (Some row), db')
     /\ ServiceRequest.type row = ServiceRequestType.INSTALLATION
     /\ ServiceRequest.status row = ServiceRequestStatus.COMPLETED)
  /\ validateServiceRequestTransition
       (exampleRequest ServiceRequestStatus.IN_PROGRESS
          ServiceRequestType.INSTALLATION false (Some "agent1") (Some "ir1"))
       ServiceRequestStatus.COMPLETED
       (Some {| Evidence.beforeImages := None;
                Evidence.afterImages := Some ["after.jpg"] |})
       (exampleStore [exampleRequest ServiceRequestStatus.IN_PROGRESS
                        ServiceRequestType.INSTALLATION false (Some "agent1")
                        (Some "ir1")])
     = (Err (badRequest
          "Installation service requests must go through PAYMENT_PENDING status before completion"),
        exampleStore [exampleRequest ServiceRequestStatus.IN_PROGRESS
                        ServiceRequestType.INSTALLATION false (Some "agent1")
                        (Some "ir1")]).
Proof.
  split.
  - eexists _, _. split; [vm_compute; reflexivity|]. vm_compute. repeat split.
  - vm_compute. reflexivity.
Qed.

(** C4, at the failing request.  A scheduled installation service request
    linked to the installation request [ir1] is started:
    [updateServiceRequestStatus] accepts and the installation request keeps
    the status INSTALLATION_SCHEDULED, while the synchronizer, had it been
    called, would have written INSTALLATION_IN_PROGRESS. *)
Theorem started_installation_is_not_synchronized :
  (exists row db',
     updateServiceRequestStatus exampleStringify exampleISO exampleNow "srq1"
       ServiceRequestStatus.IN_PROGRESS agentUser (withImages ["before.jpg"])
       (exampleStore [exampleRequest ServiceRequestStatus.SCHEDULED
                        ServiceRequestType.INSTALLATION true (Some "agent1")
                        (Some "ir1")])
     = (Ok (Some row), db')
     /\ ServiceRequest.status row = ServiceRequestStatus.IN_PROGRESS
     /\ ServiceRequest.installationRequestId row = Some "ir1"
     /\ map (fun r => (InstallationRequest.id r, InstallationRequest.status r))
            (installationRequests db')
        = [("ir1", Some InstallationRequestStatus.INSTALLATION_SCHEDULED)])
  /\ map (fun r => (InstallationRequest.id r, InstallationRequest.status r))
         (installationRequests
            (snd (syncInstallationRequestStatus "ir1" ServiceRequestStatus.IN_PROGRESS
                    agentUser "srq1"
                    (exampleStore [exampleRequest ServiceRequestStatus.SCHEDULED
                                     ServiceRequestType.INSTALLATION true (Some "agent1")
                                     (Some "ir1")]))))
     = [("ir1", Some InstallationRequestStatus.INSTALLATION_IN_PROGRESS)].
Proof.
  split.
  - eexists _, _. split; [vm_compute; reflexivity|]. vm_compute. repeat split.
  - vm_compute. reflexivity.
Qed.

(** C5, at the failing request.  A completed request is assigned again by
    an administrator and becomes ASSIGNED; a completed request is scheduled
    again by an administrator and becomes SCHEDULED. *)
Theorem completed_request_is_reopened :
  (exists row db',
     assignServiceAgent exampleISO exampleNow "srq1" "agent1" adminUser
       (exampleStore [exampleRequest ServiceRequestStatus.COMPLETED "repair" false
                        (Some "agent1") None])
     = (Ok (Some row), db')
     /\ getServiceRequestById "srq1" db' = (Ok (Some row), db')
     /\ ServiceRequest.status row = ServiceRequestStatus.ASSIGNED)
  /\ (exists row db',
        scheduleServiceRequest exampleISO exampleParse exampleNow "srq1"
          "2030-01-01T00:00:00.000Z" adminUser
          (exampleStore [exampleRequest ServiceRequestStatus.COMPLETED "repair" false
                           (Some "agent1") None])
        = (Ok (Some row), db')
        /\ getServiceRequestById "srq1" db' = (Ok (Some row), db')
        /\ ServiceRequest.status row = ServiceRequestStatus.SCHEDULED).
Proof.
  split; eexists _, _; (split; [vm_compute; reflexivity|]); vm_compute; repeat split.
Qed.

(** C6, at the failing request.  An installation request waiting for its
    payment, in a store with no payment record at all, completion images
    supplied: [updateServiceRequestStatus] completes it, while the validator
    written for installation requests throws at the same request. *)
Theorem installation_completes_without_payment_record :
  payments (exampleStore [exampleRequest ServiceRequestStatus.PAYMENT_PENDING
                            ServiceRequestType.INSTALLATION true (Some "agent1")
                            (Some "ir1")]) = []
  /\ (exists row db',
        updateServiceRequestStatus exampleStringify exampleISO exampleNow "srq1"
          ServiceRequestStatus.COMPLETED agentUser (withImages ["after.jpg"])
          (exampleStore [exampleRequest ServiceRequestStatus.PAYMENT_PENDING
                           ServiceRequestType.INSTALLATION true (Some "agent1")
                           (Some "ir1")])
        = (Ok (Some row), db')
        /\ getServiceRequestById "srq1" db' = (Ok (Some row), db')
        /\ ServiceRequest.type row = ServiceRequestType.INSTALLATION
        /\ ServiceRequest.status row = ServiceRequestStatus.COMPLETED)
  /\ validateServiceRequestTransition
       (exampleRequest ServiceRequestStatus.PAYMENT_PENDING
          ServiceRequestType.INSTALLATION true (Some "agent1") (Some "ir1"))
       ServiceRequestStatus.COMPLETED
       (Some {| Evidence.beforeImages := None;
                Evidence.afterImages := Some ["after.jpg"] |})
       (exampleStore [exampleRequest ServiceRequestStatus.PAYMENT_PENDING
                        ServiceRequestType.INSTALLATION true (Some "agent1")
                        (Some "ir1")])
     = (Err (badRequest "please complete payment first"),
        exampleStore [exampleRequest ServiceRequestStatus.PAYMENT_PENDING
                        ServiceRequestType.INSTALLATION true (Some "agent1")
                        (Some "ir1")]).
Proof.
  split; [reflexivity|]. split.
  - eexists _, _. split; [vm_compute; reflexivity|]. vm_compute. repeat split.
  - vm_compute. reflexivity.
Qed.

(** C7, at the failing requests.  Through [updateServiceRequestStatus] an
    assigned request is scheduled for an instant twenty-six years before the
    evaluation time; through [scheduleServiceRequest] an administrator
    schedules a request that has no assigned agent. *)
Theorem scheduling_skips_one_check_on_each_path :
  (exists instant, exampleParse "2000-01-01T00:00:00.000Z" = Some instant
                   /\ instant < exampleNow)
  /\ (exists row db',
        updateServiceRequestStatus exampleStringify exampleISO exampleNow "srq1"
          ServiceRequestStatus.SCHEDULED adminUser
          (Some {| StatusData.agentId := None; StatusData.completedAt := None;
                   StatusData.scheduledDate := Some "2000-01-01T00:00:00.000Z";
                   StatusData.paymentAmount := None; StatusData.images := None |})
          (exampleStore [exampleRequest ServiceRequestStatus.ASSIGNED "repair" false
                           (Some "agent1") None])
        = (Ok (Some row), db')
        /\ getServiceRequestById "srq1" db' = (Ok (Some row), db')
        /\ ServiceRequest.status row = ServiceRequestStatus.SCHEDULED
        /\ ServiceRequest.scheduledDate row = Some "2000-01-01T00:00:00.000Z")
  /\ (exists row db',
        scheduleServiceRequest exampleISO exampleParse exampleNow "srq1"
          "2030-01-01T00:00:00.000Z" adminUser
          (exampleStore [exampleRequest ServiceRequestStatus.CREATED "repair" false
                           None None])
        = (Ok (Some row), db')
        /\ getServiceRequestById "srq1" db' = (Ok (Some row), db')
        /\ ServiceRequest.status row = ServiceRequestStatus.SCHEDULED
        /\ ServiceRequest.assignedToId row = None).
Proof.
  split; [|split].
  - exists 946684800000. split; reflexivity.
  - eexists _, _. split; [vm_compute; reflexivity|]. vm_compute. repeat split.
  - eexists _, _. split; [vm_compute; reflexivity|]. vm_compute. repeat split.
Qed.

(** C9, at the failing requests.  An accepted assignment through
    [updateServiceRequestStatus] with the agent id [agent1] leaves
    [assignedToId] empty, and an accepted completion leaves [completedDate]
    empty: the keys written are [assignedAgentId] and [completedAt]. *)
Theorem status_update_misses_two_columns :
  (exists row db',
     updateServiceRequestStatus exampleStringify exampleISO exampleNow "srq1"
       ServiceRequestStatus.ASSIGNED adminUser
       (Some {| StatusData.agentId := Some "agent1"; StatusData.completedAt := None;
                StatusData.scheduledDate := None; StatusData.paymentAmount := None;
                StatusData.images := None |})
       (exampleStore [exampleRequest ServiceRequestStatus.CREATED "repair" false
                        None None])
     = (Ok (Some row), db')
     /\ getServiceRequestById "srq1" db' = (Ok (Some row), db')
     /\ ServiceRequest.status row = ServiceRequestStatus.ASSIGNED
     /\ ServiceRequest.assignedToId row = None)
  /\ (exists row db',
        updateServiceRequestStatus exampleStringify exampleISO exampleNow "srq1"
          ServiceRequestStatus.COMPLETED agentUser (withImages ["after.jpg"])
          (exampleStore [exampleRequest ServiceRequestStatus.IN_PROGRESS "repair" false
                           (Some "agent1") None])
        = (Ok (Some row), db')
        /\ getServiceRequestById "srq1" db' = (Ok (Some row), db')
        /\ ServiceRequest.status row = ServiceRequestStatus.COMPLETED
        /\ ServiceRequest.completedDate row = None)
  /\ updateData exampleStringify exampleISO exampleNow ServiceRequestStatus.ASSIGNED
       (Some {| StatusData.agentId := Some "agent1"; StatusData.completedAt := None;
                StatusData.scheduledDate := None; StatusData.paymentAmount := None;
                StatusData.images := None |})
     = <["assignedAgentId" := VString "agent1"]>
         (<["updatedAt" := VString "2026-11-01T00:00:00.000Z"]>
            {["status" := VStatus ServiceRequestStatus.ASSIGNED]}).
Proof.
  split; [|split].
  - eexists _, _. split; [vm_compute; reflexivity|]. vm_compute. repeat split.
  - eexists _, _. split; [vm_compute; reflexivity|]. vm_compute. repeat split.
  - reflexivity.
Qed.

(** The request of C3 is one the service itself produces: a customer
    creates a request of type INSTALLATION without asking for payment, an
    administrator assigns and schedules it, the agent starts it and
    completes it.  The history never shows PAYMENT_PENDING. *)
Lemma installation_request_without_payment_is_reachable :
  exists row db',
    (createServiceRequest exampleStringify exampleISO exampleNow "srq1"
       {| CreateData.productId := "product1";
          CreateData.subscriptionId := None;
          CreateData.installationRequestId := None;
          CreateData.type := ServiceRequestType.INSTALLATION;
          CreateData.description := "install the purifier";
          CreateData.scheduledDate := None;
          CreateData.images := None;
          CreateData.requiresPayment := None;
          CreateData.paymentAmount := None |}
       customerUser ;;
     assignServiceAgent exampleISO exampleNow "srq1" "agent1" adminUser ;;
     scheduleServiceRequest exampleISO exampleParse exampleNow "srq1"
       "2030-01-01T00:00:00.000Z" adminUser ;;
     updateServiceRequestStatus exampleStringify exampleISO exampleNow "srq1"
       ServiceRequestStatus.IN_PROGRESS agentUser (withImages ["before.jpg"]) ;;
     updateServiceRequestStatus exampleStringify exampleISO exampleNow "srq1"
       ServiceRequestStatus.COMPLETED agentUser (withImages ["after.jpg"]))
      (exampleStore [])
    = (Ok (Some row), db')
    /\ ServiceRequest.type row = ServiceRequestType.INSTALLATION
    /\ ServiceRequest.requiresPayment row = false
    /\ ServiceRequest.status row = ServiceRequestStatus.COMPLETED
    /\ map toStatus (actionHistory db')
       = [OfServiceRequest ServiceRequestStatus.CREATED;
          OfServiceRequest ServiceRequestStatus.ASSIGNED;
          OfServiceRequest ServiceRequestStatus.SCHEDULED;
          OfServiceRequest ServiceRequestStatus.IN_PROGRESS;
          OfServiceRequest ServiceRequestStatus.COMPLETED].
Proof.
  eexists _, _. split; [vm_compute; reflexivity|]. vm_compute. repeat split.
Qed.

(** * The authentication plugin *)

(** X23.  [authorizeRoles] lets a request through, sending no reply,
    exactly when the token verifies and the request then carries a user
    whose role is one of the roles listed; it answers 403 exactly when the
    token verifies and the role of that user is not listed; every other
    request is answered 401.  With no role listed, no request gets
    through. *)
Theorem authorizeRoles_admits_exactly_the_listed_roles
  (jwtVerify : Auth.Request -> option (Auth.Decoded * Auth.Request))
  (roles : list UserRole.t) (request : Auth.Request) :
  (snd (Auth.authorizeRoles jwtVerify roles request) = None
   <-> exists decoded request' u,
         jwtVerify request = Some (decoded, request')
         /\ Auth.user request' = Some u /\ In (Auth.role u) roles)
  /\ (snd (Auth.authorizeRoles jwtVerify roles request) = Some Auth.forbiddenReply
      <-> exists decoded request' u,
            jwtVerify request = Some (decoded, request')
            /\ Auth.user request' = Some u /\ ~ In (Auth.role u) roles)
  /\ (snd (Auth.authorizeRoles jwtVerify roles request) = None
      \/ snd (Auth.authorizeRoles jwtVerify roles request) = Some Auth.forbiddenReply
      \/ snd (Auth.authorizeRoles jwtVerify roles request) = Some Auth.unauthorized)
  /\ (roles = [] -> snd (Auth.authorizeRoles jwtVerify roles request) <> None).
Proof.
  assert (Hin : forall (role : UserRole.t),
             existsb (fun r => bool_decide (r = role)) roles = true <-> In role roles).
  { intros role. rewrite existsb_exists. split.
    - intros (r & Hr & Heq). apply bool_decide_eq_true_1 in Heq. subst r. exact Hr.
    - intros Hr. exists role. split; [exact Hr | apply bool_decide_eq_true_2; reflexivity]. }
  unfold Auth.authorizeRoles.
  destruct (jwtVerify request) as [[decoded request']|] eqn:Hverify;
    [destruct (Auth.user request') as [u|] eqn:Huser;
       [destruct (existsb (fun r => bool_decide (r = Auth.role u)) roles) eqn:Hrole|]|];
    cbn [negb snd].
  - apply Hin in Hrole. split; [|split; [|split]].
    + split; [intros _; exists decoded, request', u; auto | reflexivity].
    + split; [discriminate|].
      intros (d & r & u' & Hv & Hu & Hnot). injection Hv as <- <-.
      rewrite Huser in Hu. injection Hu as <-. contradiction.
    + left. reflexivity.
    + intros ->. destruct Hrole.
  - assert (Hnot : ~ In (Auth.role u) roles).
    { intros H. apply Hin in H. congruence. }
    split; [|split; [|split]].
    + split; [discriminate|].
      intros (d & r & u' & Hv & Hu & Hyes). injection Hv as <- <-.
      rewrite Huser in Hu. injection Hu as <-. contradiction.
    + split; [intros _; exists decoded, request', u; auto | reflexivity].
    + right. left. reflexivity.
    + discriminate.
  - split; [|split; [|split]].
    + split; [discriminate|].
      intros (d & r & u' & Hv & Hu & _). injection Hv as <- <-.
      rewrite Huser in Hu. discriminate.
    + split; [discriminate|].
      intros (d & r & u' & Hv & Hu & _). injection Hv as <- <-.
      rewrite Huser in Hu. discriminate.
    + right. right. reflexivity.
    + discriminate.
  - split; [|split; [|split]].
    + split; [discriminate | intros (d & r & u' & Hv & _); discriminate].
    + split; [discriminate | intros (d & r & u' & Hv & _); discriminate].
    + right. right. reflexivity.
    + discriminate.
Qed.

(** * The properties above, at concrete stores *)

(** X6, at a request.  A payable repair in progress for which the agent
    sends an amount and one image: the request for payment is accepted. *)
Lemma agent_requests_payment_with_amount_and_image :
  isOk (fst (updateServiceRequestStatus exampleStringify exampleISO exampleNow "srq1"
               ServiceRequestStatus.PAYMENT_PENDING agentUser
               (withAmount 500 ["after.jpg"])
               (exampleStore [exampleRequest ServiceRequestStatus.IN_PROGRESS "repair" true
                                (Some "agent1") None])))
  = true.
Proof.
  destruct (payment_is_requested_exactly_when exampleStringify exampleISO exampleNow
              "srq1" agentUser (withAmount 500 ["after.jpg"])
              (exampleStore [exampleRequest ServiceRequestStatus.IN_PROGRESS "repair" true
                               (Some "agent1") None])
              (exampleRequest ServiceRequestStatus.IN_PROGRESS "repair" true
                 (Some "agent1") None)
              eq_refl) as [Hok _].
  rewrite Hok. reflexivity.
Defined.

(** X7, at a request.  A customer cancels a scheduled request without
    sending anything. *)
Lemma customer_cancels_a_scheduled_request :
  isOk (fst (updateServiceRequestStatus exampleStringify exampleISO exampleNow "srq1"
               ServiceRequestStatus.CANCELLED customerUser None
               (exampleStore [exampleRequest ServiceRequestStatus.SCHEDULED "repair" false
                                (Some "agent1") None])))
  = true.
Proof.
  destruct (cancellation_is_accepted_exactly_when exampleStringify exampleISO exampleNow
              "srq1" customerUser None
              (exampleStore [exampleRequest ServiceRequestStatus.SCHEDULED "repair" false
                               (Some "agent1") None])
              (exampleRequest ServiceRequestStatus.SCHEDULED "repair" false
                 (Some "agent1") None)
              eq_refl) as [Hok _].
  rewrite Hok. reflexivity.
Defined.

(** X8, at a sequence.  A created request without agent, asked to become
    ASSIGNED, then SCHEDULED with an agent named in the call, then
    IN_PROGRESS: the one row of the table is ASSIGNED, still without
    agent. *)
Lemma three_updates_leave_the_request_unscheduled :
  exists row,
    serviceRequests
      (runAll exampleStringify exampleISO exampleParse
         [ UpdateStatus exampleNow "srq1" ServiceRequestStatus.ASSIGNED adminUser
             (Some {| StatusData.agentId := Some "agent1";
                      StatusData.completedAt := None;
                      StatusData.scheduledDate := None;
                      StatusData.paymentAmount := None;
                      StatusData.images := None |});
           UpdateStatus exampleNow "srq1" ServiceRequestStatus.SCHEDULED adminUser
             (Some {| StatusData.agentId := Some "agent1";
                      StatusData.completedAt := None;
                      StatusData.scheduledDate := Some "2030-01-01T00:00:00.000Z";
                      StatusData.paymentAmount := None;
                      StatusData.images := None |});
           UpdateStatus exampleNow "srq1" ServiceRequestStatus.IN_PROGRESS agentUser
             (withImages ["before.jpg"]) ]
         (exampleStore [exampleRequest ServiceRequestStatus.CREATED "repair" false
                          None None]))
    = [row]
    /\ ServiceRequest.status row = ServiceRequestStatus.ASSIGNED
    /\ waitsForAnAgent row.
Proof.
  eexists. split; [vm_compute; reflexivity|]. split; [reflexivity|].
  apply (status_updates_alone_never_schedule exampleStringify exampleISO exampleParse
           "srq1"
           [ UpdateStatus exampleNow "srq1" ServiceRequestStatus.ASSIGNED adminUser
               (Some {| StatusData.agentId := Some "agent1";
                        StatusData.completedAt := None;
                        StatusData.scheduledDate := None;
                        StatusData.paymentAmount := None;
                        StatusData.images := None |});
             UpdateStatus exampleNow "srq1" ServiceRequestStatus.SCHEDULED adminUser
               (Some {| StatusData.agentId := Some "agent1";
                        StatusData.completedAt := None;
                        StatusData.scheduledDate := Some "2030-01-01T00:00:00.000Z";
                        StatusData.paymentAmount := None;
                        StatusData.images := None |});
             UpdateStatus exampleNow "srq1" ServiceRequestStatus.IN_PROGRESS agentUser
               (withImages ["before.jpg"]) ]
           (exampleStore [exampleRequest ServiceRequestStatus.CREATED "repair" false
                            None None])).
  - reflexivity.
  - intros r [<-|[]] _. split; [reflexivity | left; reflexivity].
  - vm_compute. left. reflexivity.
  - reflexivity.
Defined.

(** X9, at a call.  The administrator assigns the example agent to a
    created request. *)
Lemma admin_assigns_the_example_agent :
  exists x db' sr agent,
    assignServiceAgent exampleISO exampleNow "srq1" "agent1" adminUser
      (exampleStore [exampleRequest ServiceRequestStatus.CREATED "repair" false None None])
    = (Ok x, db')
    /\ User.role agent = UserRole.SERVICE_AGENT
    /\ x = Some (assignedTo exampleISO exampleNow "agent1" sr).
Proof.
  eexists. eexists.
  assert (Hrun : assignServiceAgent exampleISO exampleNow "srq1" "agent1" adminUser
                   (exampleStore [exampleRequest ServiceRequestStatus.CREATED "repair"
                                    false None None])
                 = (Ok _, _)) by (vm_compute; reflexivity).
  destruct (assignServiceAgent_succeeds_only_for _ _ _ _ _ _ _ _ Hrun)
    as (sr & agent & _ & _ & _ & Hagent & Hx & _).
  exists sr, agent. split; [exact Hrun|]. split; [exact Hagent | exact Hx].
Defined.

(** X10, at a call.  The assigned agent schedules the request for 2030. *)
Lemma assigned_agent_schedules_for_2030 :
  exists x db' sr,
    scheduleServiceRequest exampleISO exampleParse exampleNow "srq1"
      "2030-01-01T00:00:00.000Z" agentUser
      (exampleStore [exampleRequest ServiceRequestStatus.ASSIGNED "repair" false
                       (Some "agent1") None])
    = (Ok x, db')
    /\ exampleNow < 1893456000000
    /\ x = Some (scheduledAt exampleISO exampleNow 1893456000000 sr).
Proof.
  eexists. eexists.
  assert (Hrun : scheduleServiceRequest exampleISO exampleParse exampleNow "srq1"
                   "2030-01-01T00:00:00.000Z" agentUser
                   (exampleStore [exampleRequest ServiceRequestStatus.ASSIGNED "repair"
                                    false (Some "agent1") None])
                 = (Ok _, _)) by (vm_compute; reflexivity).
  destruct (scheduleServiceRequest_succeeds_only_for _ _ _ _ _ _ _ _ _ Hrun)
    as (sr & instant & _ & _ & Hparse & Hlater & Hx & _).
  injection Hparse as <-.
  exists sr. split; [exact Hrun|]. split; [exact Hlater | exact Hx].
Defined.

(** X11, at a call.  The administrator schedules with a text that is no
    date. *)
Lemma scheduling_for_tomorrow_in_words_throws :
  scheduleServiceRequest exampleISO exampleParse exampleNow "srq1" "tomorrow" adminUser
    (exampleStore [exampleRequest ServiceRequestStatus.ASSIGNED "repair" false
                     (Some "agent1") None])
  = (Err RangeError,
     exampleStore [exampleRequest ServiceRequestStatus.ASSIGNED "repair" false
                     (Some "agent1") None]).
Proof.
  apply (scheduleServiceRequest_throws_on_unparsable_text exampleISO exampleParse
           exampleNow "srq1" "tomorrow" adminUser _
           (exampleRequest ServiceRequestStatus.ASSIGNED "repair" false
              (Some "agent1") None)).
  - reflexivity.
  - left. reflexivity.
  - reflexivity.
Defined.

(** X12, at two calls.  The administrator assigns the example agent, who
    then schedules the request for 2030. *)
Lemma assignment_then_scheduling_by_the_agent :
  exists x db1 row db2,
    assignServiceAgent exampleISO exampleNow "srq1" "agent1" adminUser
      (exampleStore [exampleRequest ServiceRequestStatus.CREATED "repair" false None None])
    = (Ok x, db1)
    /\ scheduleServiceRequest exampleISO exampleParse exampleNow "srq1"
         "2030-01-01T00:00:00.000Z" agentUser db1
       = (Ok (Some row), db2)
    /\ ServiceRequest.status row = ServiceRequestStatus.SCHEDULED
    /\ ServiceRequest.assignedToId row = Some "agent1"
    /\ ServiceRequest.scheduledDate row = Some "2030-01-01T00:00:00.000Z".
Proof.
  eexists. eexists.
  assert (Hrun : assignServiceAgent exampleISO exampleNow "srq1" "agent1" adminUser
                   (exampleStore [exampleRequest ServiceRequestStatus.CREATED "repair"
                                    false None None])
                 = (Ok _, _)) by (vm_compute; reflexivity).
  destruct (assigned_agent_may_schedule exampleISO exampleParse exampleNow exampleNow
              "srq1" "agent1" adminUser agentUser "2030-01-01T00:00:00.000Z"
              1893456000000 _ _ _ Hrun eq_refl eq_refl eq_refl eq_refl)
    as (row & db2 & Hschedule & Hstatus & Hagent & Hdate).
  exists row, db2. split; [exact Hrun|]. split; [exact Hschedule|].
  split; [exact Hstatus|]. split; [exact Hagent | exact Hdate].
Defined.

(** X13, at a call.  The example customer, who lives in the city of the
    example franchise, asks for a repair. *)
Lemma customer_creates_a_repair_request :
  exists x db' row,
    createServiceRequest exampleStringify exampleISO exampleNow "srq2"
      (exampleCreateData None None None) customerUser (exampleStore [])
    = (Ok x, db')
    /\ serviceRequests db' = [row]
    /\ ServiceRequest.id row = "srq2"
    /\ ServiceRequest.status row = ServiceRequestStatus.CREATED
    /\ ServiceRequest.customerId row = "customer1"
    /\ length (actionHistory db') = 1%nat.
Proof.
  eexists. eexists.
  assert (Hrun : createServiceRequest exampleStringify exampleISO exampleNow "srq2"
                   (exampleCreateData None None None) customerUser (exampleStore [])
                 = (Ok _, _)) by (vm_compute; reflexivity).
  destruct (createServiceRequest_appends_a_created_row _ _ _ _ _ _ _ _ _ Hrun)
    as (row & franchise & Hrows & Hid & Hstatus & Hcustomer & _ & _ & _ & _ & _ & _ & _
        & Hhistory & _).
  exists row. split; [exact Hrun|]. split; [exact Hrows|]. split; [exact Hid|].
  split; [exact Hstatus|]. split; [exact Hcustomer|]. rewrite Hhistory. reflexivity.
Defined.

(** X14, at a call.  The customer names their subscription and the example
    installation request at once: the franchise of the subscription is
    taken. *)
Lemma subscription_decides_the_franchise :
  exists row db',
    createServiceRequest exampleStringify exampleISO exampleNow "srq2"
      (exampleCreateData (Some "sub1") (Some "ir1") None) customerUser
      (subscribedStore [])
    = (Ok (find (fun r => bool_decide (ServiceRequest.id r = "srq2"))
                (serviceRequests db')), db')
    /\ serviceRequests db' = [row]
    /\ ServiceRequest.subscriptionId row = Some "sub1"
    /\ ServiceRequest.installationRequestId row = Some "ir1"
    /\ ServiceRequest.franchiseId row = Some "franchise2".
Proof.
  destruct (createServiceRequest_subscription_comes_first exampleStringify exampleISO
              exampleNow "srq2" (exampleCreateData (Some "sub1") (Some "ir1") None)
              customerUser (subscribedStore [])
              {| Product.id := "product1" |}
              {| Subscription.id := "sub1"; Subscription.customerId := "customer1";
                 Subscription.franchiseId := "franchise2" |}
              eq_refl eq_refl eq_refl eq_refl)
    as (row & db' & Hrun & Hrows & Hsub & Hir & Hfr).
  exists row, db'. split; [exact Hrun|]. split; [exact Hrows|].
  split; [exact Hsub|]. split; [exact Hir | exact Hfr].
Defined.

(** X15, at a call.  Two images sent with a new request are the images of
    the request returned. *)
Lemma two_images_read_back :
  exists x db' row,
    createServiceRequest exampleStringify exampleISO exampleNow "srq2"
      (exampleCreateData None None (Some ["a.jpg"; "b.jpg"])) customerUser
      (exampleStore [])
    = (Ok x, db')
    /\ x = Some row
    /\ parsedImages exampleParseJson row = (["a.jpg"; "b.jpg"], [], []).
Proof.
  eexists. eexists.
  assert (Hrun : createServiceRequest exampleStringify exampleISO exampleNow "srq2"
                   (exampleCreateData None None (Some ["a.jpg"; "b.jpg"])) customerUser
                   (exampleStore [])
                 = (Ok _, _)) by (vm_compute; reflexivity).
  assert (Hcodec : forall i l,
             CreateData.images (exampleCreateData None None (Some ["a.jpg"; "b.jpg"]))
             = Some (i :: l) ->
             exampleParseJson (exampleStringify (i :: l)) = Some (i :: l)).
  { intros i l H. cbn in H. injection H as <- <-. reflexivity. }
  destruct (created_images_read_back exampleStringify exampleISO exampleParseJson
              exampleNow "srq2" (exampleCreateData None None (Some ["a.jpg"; "b.jpg"]))
              customerUser (exampleStore []) _ _ Hcodec eq_refl Hrun)
    as (row & Hx & Himages).
  exists row. split; [exact Hrun|]. split; [exact Hx | exact Himages].
Defined.

(** X16, at a call.  The administrator creates the installation service
    request of an installation request that has no status yet, naming the
    example agent. *)
Lemma admin_creates_the_installation_service_request :
  exists x db' row,
    createInstallationServiceRequest exampleISO exampleNow "srq2"
      (exampleInstallationData (Some "agent1")) adminUser
      (withInstallationRequests
         [{| InstallationRequest.id := "ir1";
             InstallationRequest.customerId := "customer1";
             InstallationRequest.productId := "product1";
             InstallationRequest.franchiseId := "franchise1";
             InstallationRequest.status := None;
             InstallationRequest.assignedTechnicianId := None |}]
         (exampleStore []))
    = (Ok x, db')
    /\ serviceRequests db' = [row]
    /\ ServiceRequest.type row = "installation"
    /\ ServiceRequest.requiresPayment row = true
    /\ ServiceRequest.status row = ServiceRequestStatus.SCHEDULED
    /\ ServiceRequest.assignedToId row = Some "agent1"
    /\ forall r, In r (installationRequests db') ->
                 InstallationRequest.id r = "ir1" ->
                 InstallationRequest.status r
                 = Some InstallationRequestStatus.INSTALLATION_SCHEDULED.
Proof.
  eexists. eexists.
  assert (Hrun : createInstallationServiceRequest exampleISO exampleNow "srq2"
                   (exampleInstallationData (Some "agent1")) adminUser
                   (withInstallationRequests
                      [{| InstallationRequest.id := "ir1";
                          InstallationRequest.customerId := "customer1";
                          InstallationRequest.productId := "product1";
                          InstallationRequest.franchiseId := "franchise1";
                          InstallationRequest.status := None;
                          InstallationRequest.assignedTechnicianId := None |}]
                      (exampleStore []))
                 = (Ok _, _)) by (vm_compute; reflexivity).
  destruct (createInstallationServiceRequest_inserts_a_payable_request exampleISO
              exampleNow "srq2" (exampleInstallationData (Some "agent1")) adminUser
              (withInstallationRequests
                 [{| InstallationRequest.id := "ir1";
                     InstallationRequest.customerId := "customer1";
                     InstallationRequest.productId := "product1";
                     InstallationRequest.franchiseId := "franchise1";
                     InstallationRequest.status := None;
                     InstallationRequest.assignedTechnicianId := None |}]
                 (exampleStore []))
              _ _ _ eq_refl eq_refl Hrun)
    as (row & Hrows & _ & Htype & Hpay & _ & _ & _ & _ & Hstatus & Hagent & Hsync).
  exists row. split; [exact Hrun|]. split; [exact Hrows|]. split; [exact Htype|].
  split; [exact Hpay|]. split; [exact Hstatus|]. split; [exact Hagent | exact Hsync].
Defined.

(** X17, at two calls.  The administrator creates the installation service
    request; a customer then calls for the same installation request with
    another id and an agent that does not exist. *)
Lemma second_installation_call_adds_no_row :
  exists x db1 y db2,
    createInstallationServiceRequest exampleISO exampleNow "srq2"
      (exampleInstallationData (Some "agent1")) adminUser (exampleStore [])
    = (Ok x, db1)
    /\ createInstallationServiceRequest exampleISO exampleNow "srq3"
         (exampleInstallationData (Some "nobody")) customerUser db1
       = (Ok y, db2)
    /\ map identity (serviceRequests db2) = map identity (serviceRequests db1)
    /\ length (serviceRequests db1) = 1%nat.
Proof.
  eexists. eexists.
  assert (Hrun : createInstallationServiceRequest exampleISO exampleNow "srq2"
                   (exampleInstallationData (Some "agent1")) adminUser (exampleStore [])
                 = (Ok _, _)) by (vm_compute; reflexivity).
  destruct (createInstallationServiceRequest_never_duplicates exampleISO exampleNow
              exampleNow "srq2" "srq3" (exampleInstallationData (Some "agent1"))
              (exampleInstallationData (Some "nobody")) adminUser customerUser
              (exampleStore []) _ _ Hrun eq_refl)
    as (y & db2 & Hsecond & Hsame).
  exists y, db2. split; [exact Hrun|]. split; [exact Hsecond|].
  split; [exact Hsame | reflexivity].
Defined.

(** X20, at a request.  A completed request asked to go back to CREATED
    passes the validator. *)
Lemma validator_lets_a_completed_request_restart :
  validateServiceRequestTransition
    (exampleRequest ServiceRequestStatus.COMPLETED "repair" true (Some "agent1") None)
    ServiceRequestStatus.CREATED None (exampleStore [])
  = (Ok tt, exampleStore []).
Proof.
  apply (validateServiceRequestTransition_guards_four_edges_only
           (exampleRequest ServiceRequestStatus.COMPLETED "repair" true
              (Some "agent1") None)
           ServiceRequestStatus.CREATED None (exampleStore [])).
  intros [H|[H|[H|[H|[]]]]]; discriminate H.
Defined.
